(** * Mutawazi financial proposal backend: the pricing and cash-flow core

    A shallow embedding of [api/index.py] and the properties of its
    overhead calculator, deliverable cash-flow engine, proposal assembler,
    summary formatter, price-justification seam and proposal store.

    Python values are modelled as the interpreter has them: [float] is an
    IEEE 754 binary64 number (the Standard Library's executable
    [SpecFloat] model, rounding to nearest even), [int] is an unbounded
    integer, and arithmetic between the two converts the [int] operand
    first.  Exceptions are an explicit result type; [try]/[except] is a
    handler applied to a raised result. *)

From Stdlib Require Import ZArith Lia Bool List String Ascii.
From Stdlib Require Import Floats.SpecFloat.
From stdpp Require Import base option gmap strings list.

Import ListNotations.
Local Open Scope Z_scope.

(** ** Python numbers *)

Module F.

(** binary64: 53 bits of precision, infinities at exponent 1024. *)
Definition prec : Z := 53.
Definition emax : Z := 1024.

Definition t : Type := spec_float.

(** [float(z)] for an [int]: the nearest double, ties to even.  CPython
    raises [OverflowError] beyond the double range; every [int] this
    program converts is a literal, a catalog duration, a default
    overhead rate or a day count, far below that range. *)
Definition of_Z (z : Z) : t := binary_normalize prec emax z 0 false.

Definition add : t -> t -> t := SFadd prec emax.
Definition sub : t -> t -> t := SFsub prec emax.
Definition mul : t -> t -> t := SFmul prec emax.
Definition div : t -> t -> t := SFdiv prec emax.
Definition abs : t -> t := SFabs.
Definition ltb : t -> t -> bool := SFltb.
Definition leb : t -> t -> bool := SFleb.

(** A decimal literal [digits]e-[places], such as [0.15] or [30.44]:
    the double nearest to the decimal.  Numerator and power of ten are
    exact doubles, so the correctly rounded quotient is that double. *)
Definition decimal (digits places : Z) : t :=
  div (of_Z digits) (of_Z (10 ^ places)).

Definition is_zero (x : t) : bool :=
  match x with S754_zero _ => true | _ => false end.

Definition is_nan (x : t) : bool :=
  match x with S754_nan => true | _ => false end.

(** The nearest integer to [a / b] for [0 <= a], [0 < b], ties to even. *)
Definition nearest_even (a b : Z) : Z :=
  let q := a / b in
  match 2 * (a mod b) ?= b with
  | Lt => q
  | Eq => if Z.even q then q else q + 1
  | Gt => q + 1
  end.

(** The nearest integer to [|x| * 10^places] for a finite [x]. *)
Definition scaled_magnitude (places : Z) (m : positive) (e : Z) : Z :=
  if 0 <=? e then Z.pos m * 2 ^ e * 10 ^ places
  else nearest_even (Z.pos m * 10 ^ places) (2 ^ (- e)).

(** [round(x, places)] on a float, for the small non-negative [places]
    used here: the exact binary value is rounded to a decimal with that
    many fractional digits (half to even), and the decimal is read back
    as the nearest double.  Infinities and NaN round to themselves, and
    a result of zero keeps the sign. *)
Definition round_to (places : Z) (x : t) : t :=
  match x with
  | S754_finite s m e =>
      match scaled_magnitude places m e with
      | Z.pos n =>
          SFdiv prec emax (S754_finite s n 0)
                (S754_finite false (Z.to_pos (10 ^ places)) 0)
      | _ => S754_zero s
      end
  | _ => x
  end.

(** The integer nearest to a finite [x], ties to even; [None] for an
    infinity or NaN. *)
Definition to_nearest_Z (x : t) : option Z :=
  match x with
  | S754_zero _ => Some 0
  | S754_finite s m e =>
      let n := scaled_magnitude 0 m e in
      Some (if s then - n else n)
  | _ => None
  end.



(** [x] is finite and its exact value is the fraction [n / d]. *)
Definition exactly (x : t) (n d : Z) : bool :=
  match x with
  | S754_zero _ => n =? 0
  | S754_finite s m e =>
      let v := if s then Z.neg m else Z.pos m in
      if 0 <=? e then v * 2 ^ e * d =? n else v * d =? n * 2 ^ (- e)
  | _ => false
  end.

End F.

(** A Python number is an [int] or a [float]. *)
Inductive num : Type :=
| PyInt (z : Z)
| PyFloat (x : F.t).

Definition to_float (a : num) : F.t :=
  match a with
  | PyInt z => F.of_Z z
  | PyFloat x => x
  end.

(** Binary [+], [-], [*]: exact on two ints, otherwise on doubles. *)
Definition py_add (a b : num) : num :=
  match a, b with
  | PyInt x, PyInt y => PyInt (x + y)
  | _, _ => PyFloat (F.add (to_float a) (to_float b))
  end.

Definition py_sub (a b : num) : num :=
  match a, b with
  | PyInt x, PyInt y => PyInt (x - y)
  | _, _ => PyFloat (F.sub (to_float a) (to_float b))
  end.

Definition py_mul (a b : num) : num :=
  match a, b with
  | PyInt x, PyInt y => PyInt (x * y)
  | _, _ => PyFloat (F.mul (to_float a) (to_float b))
  end.

(** [a > b] and [a >= b].  A comparison with NaN is false.  The program
    compares a float with a float or with the literal [0], for which
    converting the int operand first is exact. *)
Definition py_gt (a b : num) : bool :=
  match a, b with
  | PyInt x, PyInt y => y <? x
  | _, _ => F.ltb (to_float b) (to_float a)
  end.

Definition py_ge (a b : num) : bool :=
  match a, b with
  | PyInt x, PyInt y => y <=? x
  | _, _ => F.leb (to_float b) (to_float a)
  end.


(** [a == 0]. *)
Definition py_is_zero (a : num) : bool :=
  match a with
  | PyInt z => z =? 0
  | PyFloat x => F.is_zero x
  end.

(** Built-in [abs]. *)
Definition py_abs (a : num) : num :=
  match a with
  | PyInt z => PyInt (Z.abs z)
  | PyFloat x => PyFloat (F.abs x)
  end.

(** Built-in [sum]: starts from the int [0] and adds the items from left
    to right.  (CPython 3.12 and later carry a compensation term through
    a run of floats; on one or two floats the result is the same.) *)
Definition py_sum (xs : list num) : num := fold_left py_add xs (PyInt 0).

(** Built-in [round(a, 2)]: an int is returned unchanged. *)
Definition py_round2 (a : num) : num :=
  match a with
  | PyInt z => PyInt z
  | PyFloat x => PyFloat (F.round_to 2 x)
  end.

(** ** Text, exceptions and results *)

(** An f-string is kept as the sequence of its pieces: literal and
    interpolated text, a number rendered with [str], and a number
    rendered with the format [,.2f]. *)
Inductive frag : Type :=
| Txt (s : string)
| StrOf (x : num)
| Money (x : num).

Definition text : Type := list frag.

(** [HTTPException] is the framework's error response; any other exception
    is recorded with its class name and message. *)
Inductive exn : Type :=
| HTTPException (status_code : Z) (detail : text)
| PyException (cls : string) (message : text).

(** [str(e)], as [f"{e}"] renders it.  For [HTTPException] this is the
    framework's "{status_code}: {detail}". *)
Definition str_exn (e : exn) : text :=
  match e with
  | HTTPException status_code detail =>
      StrOf (PyInt status_code) :: Txt ": " :: detail
  | PyException _ message => message
  end.

Inductive result (A : Type) : Type :=
| Return (a : A)
| Raise (e : exn).

Arguments Return {A} a.
Arguments Raise {A} e.

#[global] Instance result_ret : MRet result := fun A a => Return a.

#[global] Instance result_bind : MBind result := fun A B f c =>
  match c with
  | Return a => f a
  | Raise e => Raise e
  end.

(** [try: body except Exception as e: handler e]. *)
Definition try_except {A} (body : result A) (handler : exn -> result A)
  : result A :=
  match body with
  | Return a => Return a
  | Raise e => handler e
  end.

Definition is_raise {A} (c : result A) : bool :=
  match c with Raise _ => true | Return _ => false end.

(** True division [a / b]: always a float, [ZeroDivisionError] on a zero
    divisor. *)
Definition py_truediv (a b : num) : result num :=
  if py_is_zero b
  then Raise (PyException "ZeroDivisionError" [Txt "division by zero"])
  else Return (PyFloat (F.div (to_float a) (to_float b))).

(** Built-in [round(a)] with one argument: the nearest int, ties to even. *)
Definition py_round (a : num) : result num :=
  match a with
  | PyInt z => Return (PyInt z)
  | PyFloat x =>
      match F.to_nearest_Z x with
      | Some z => Return (PyInt z)
      | None =>
          if F.is_nan x
          then Raise (PyException "ValueError"
                        [Txt "cannot convert float NaN to integer"])
          else Raise (PyException "OverflowError"
                        [Txt "cannot convert float infinity to integer"])
      end
  end.

(** ** Python strings

    A [str] is held as its UTF-8 bytes. *)

Module Str.

Definition code (c : ascii) : N := N_of_ascii c.

(** Truth value of a string: non-empty. *)
Definition truthy (s : string) : bool :=
  match s with EmptyString => false | String _ _ => true end.

(** The white space characters [str.strip] removes, by encoding length:
    U+0009..U+000D, U+001C..U+0020; U+0085, U+00A0; U+1680,
    U+2000..U+200A, U+2028, U+2029, U+202F, U+205F, U+3000. *)
Definition space1 (a : N) : bool :=
  ((9 <=? a) && (a <=? 13) || (28 <=? a) && (a <=? 32))%N.

Definition space2 (a b : N) : bool :=
  ((a =? 194) && ((b =? 133) || (b =? 160)))%N.

Definition space3 (a b c : N) : bool :=
  ((a =? 225) && (b =? 154) && (c =? 128)
   || (a =? 226) && (b =? 128)
      && ((128 <=? c) && (c <=? 138) || (c =? 168) || (c =? 169)
          || (c =? 175))
   || (a =? 226) && (b =? 129) && (c =? 159)
   || (a =? 227) && (b =? 128) && (c =? 128))%N.

(** Drop leading white space.  With [backwards] the string is read from
    its end, so the bytes of a character arrive last byte first. *)
Fixpoint drop_space (backwards : bool) (s : string) : string :=
  match s with
  | EmptyString => s
  | String c1 r1 =>
      if space1 (code c1) then drop_space backwards r1 else
      match r1 with
      | EmptyString => s
      | String c2 r2 =>
          if (if backwards then space2 (code c2) (code c1)
              else space2 (code c1) (code c2))
          then drop_space backwards r2 else
          match r2 with
          | EmptyString => s
          | String c3 r3 =>
              if (if backwards then space3 (code c3) (code c2) (code c1)
                  else space3 (code c1) (code c2) (code c3))
              then drop_space backwards r3 else s
          end
      end
  end.

(** [s.strip()]. *)
Definition strip (s : string) : string :=
  String.rev (drop_space true (String.rev (drop_space false s))).

(** [s.upper()] on the characters of a UUID's text: ASCII letters. *)
Definition upper_char (c : ascii) : ascii :=
  let a := code c in
  if ((97 <=? a) && (a <=? 122))%N then ascii_of_N (a - 32) else c.

Fixpoint upper (s : string) : string :=
  match s with
  | EmptyString => EmptyString
  | String c r => String (upper_char c) (upper r)
  end.

(** [s[:n]]. *)
Definition prefix (n : nat) (s : string) : string := substring 0 n s.

End Str.

(** ** Catalog and configuration *)

(** A dict literal is kept as its items in insertion order; the keys of
    the dicts below are distinct. *)
Fixpoint dict_get {V : Type} (d : list (string * V)) (key : string)
  : option V :=
  match d with
  | [] => None
  | (k, v) :: rest => if String.eqb k key then Some v else dict_get rest key
  end.

Definition dict_values {V : Type} (d : list (string * V)) : list V :=
  map snd d.

Module Service.
Record t : Type := {
  name : string;
  description : string;
  unit : string;
  duration : Z;
  price : F.t
}.
End Service.

Definition SERVICES_CATALOG : list (string * Service.t) := [
    ("1.0", {| Service.name := "AI Strategy & Governance";
              Service.description := "";
              Service.unit := "Service";
              Service.duration := 24;
              Service.price := F.of_Z 80000 |});
    ("1.1", {| Service.name := "AI Governance Framework Development";
              Service.description := "This includes developing AI governance frameworks aligned with international standards (e.g. ISO/IEC 42001:2023) and the client's vision and objectives";
              Service.unit := "Service";
              Service.duration := 12;
              Service.price := F.of_Z 40000 |});
    ("1.2", {| Service.name := "AI Trustworthiness & Risk Assessment";
              Service.description := "Incorporates AI risk management models to ensure ethical, bias-mitigated, and secure AI deployment";
              Service.unit := "Service";
              Service.duration := 2;
              Service.price := F.of_Z 30000 |});
    ("1.3", {| Service.name := "Ethical AI Policy & Compliance Strategy";
              Service.description := "Establishes AI ethics guidelines and ensures alignment with regulatory requirements (e.g. Saudi NDMO policies)";
              Service.unit := "Service";
              Service.duration := 3;
              Service.price := F.of_Z 15000 |});
    ("1.4", {| Service.name := "Set up AI Office in compliance with SDAIA";
              Service.description := "Assess maturity of AI compliance and set up operating model for AI offices";
              Service.unit := "Service";
              Service.duration := 2;
              Service.price := F.of_Z 10000 |});
    ("2.0", {| Service.name := "AI Project & Portfolio Management";
              Service.description := "";
              Service.unit := "Service";
              Service.duration := 18;
              Service.price := F.of_Z 950000 |});
    ("2.1", {| Service.name := "AI-Driven PMO Setup & Consultancy";
              Service.description := "Establishing or upgrading a Project Management Office with AI capabilities for automation and real-time project tracking. (Includes integrating AI tools into project workflows for status reporting and schedule optimization.)";
              Service.unit := "Service";
              Service.duration := 12;
              Service.price := F.of_Z 300000 |});
    ("2.2", {| Service.name := "AI Project Tracker & Risk Prediction Tool";
              Service.description := "Deployment of an 'AI Project Manager' solution that uses predictive analytics to forecast project risks and delays. (For example, AI-based dashboards that predict schedule slippages and resource needs, valued in mid-six figures based on past tech deployments.)";
              Service.unit := "Service";
              Service.duration := 4;
              Service.price := F.of_Z 350000 |});
    ("2.3", {| Service.name := "AI Portfolio Roadmap Development";
              Service.description := "Creating an AI-enhanced portfolio roadmap with project interdependencies and strategic alignment. (Often delivered as a consulting output rather than a separately priced item.)";
              Service.unit := "Service";
              Service.duration := 10;
              Service.price := F.of_Z 400000 |});
    ("3.0", {| Service.name := "AI Risk Management & Compliance";
              Service.description := "";
              Service.unit := "Service";
              Service.duration := 6;
              Service.price := F.of_Z 500000 |});
    ("3.1", {| Service.name := "AI Maturity & Impact Assessment";
              Service.description := "Evaluating the organization's AI maturity level and readiness, and assessing potential impact and risks of AI use cases. (Includes workshops and an AI maturity model assessment.)";
              Service.unit := "Service";
              Service.duration := 2;
              Service.price := F.of_Z 200000 |});
    ("3.2", {| Service.name := "AI Risk & Compliance Framework";
              Service.description := "Developing tools and processes for AI risk identification, bias mitigation, and compliance monitoring (e.g. TRM - Transformation Risk Manager)";
              Service.unit := "Service";
              Service.duration := 3;
              Service.price := F.of_Z 300000 |});
    ("3.3", {| Service.name := "Regulatory Alignment & Audit Preparation";
              Service.description := "Ensuring AI initiatives comply with local and international regulations, and preparing documentation for audits or certifications (such as NDMO guidelines or OECD AI principles)";
              Service.unit := "Service";
              Service.duration := 3;
              Service.price := F.of_Z 250000 |});
    ("4.0", {| Service.name := "AI Enablement & Implementation";
              Service.description := "";
              Service.unit := "Service";
              Service.duration := 36;
              Service.price := F.of_Z 3000000 |});
    ("4.1", {| Service.name := "AI Solution Design & MVP Development";
              Service.description := "End-to-end development of a proof-of-concept or MVP (Minimum Viable Product) for an AI solution tailored to the client's use case";
              Service.unit := "Solution";
              Service.duration := 2;
              Service.price := F.of_Z 725000 |});
    ("4.2", {| Service.name := "Advanced Analytics & BI Integration";
              Service.description := "Implementing AI-powered analytics, business intelligence dashboards, and real-time data processing for decision support";
              Service.unit := "Solution";
              Service.duration := 9;
              Service.price := F.of_Z 925000 |});
    ("4.3", {| Service.name := "Custom AI Use Case Development";
              Service.description := "Developing industry-specific AI use cases or models (e.g. predictive maintenance, customer service chatbots) and integrating them into business processes";
              Service.unit := "Document";
              Service.duration := 10;
              Service.price := F.of_Z 600000 |});
    ("4.4", {| Service.name := "User Interface & Experience Implementation";
              Service.description := "Building intuitive, multi-language user interfaces for AI applications, ensuring accessibility (e.g. compliance with WCAG standards).";
              Service.unit := "Software";
              Service.duration := 8;
              Service.price := F.of_Z 1000000 |});
    ("4.5", {| Service.name := "Integration & Deployment";
              Service.description := "Integration of AI solutions into the client's environment (CRM, ERP, etc.), including testing and deployment on cloud or on-prem infrastructure";
              Service.unit := "Software & Hardware";
              Service.duration := 12;
              Service.price := F.of_Z 1250000 |});
    ("4.6", {| Service.name := "Chatbot Development & Automation";
              Service.description := "Mutawazi's ChatBot capabilities are incorporated here as a key AI use-case. Developing a modular conversational AI assistant (e.g. for customer service or internal support) falls under AI Enablement";
              Service.unit := "Subscription";
              Service.duration := 1;
              Service.price := F.of_Z 10000 |});
    ("5.0", {| Service.name := "Training & Capacity Building";
              Service.description := "";
              Service.unit := "Service";
              Service.duration := 36;
              Service.price := F.of_Z 400000 |});
    ("5.1", {| Service.name := "AI Competency Development Programs";
              Service.description := "A series of workshops, 'AI bootcamps,' and hands-on training sessions to build the client team's AI skills";
              Service.unit := "Service";
              Service.duration := 36;
              Service.price := F.of_Z 250000 |});
    ("5.2", {| Service.name := "Executive Leadership Workshops";
              Service.description := "High-level seminars for leadership on AI strategy, transformation, and change management";
              Service.unit := "Employee";
              Service.duration := 6;
              Service.price := F.of_Z 25000 |});
    ("5.3", {| Service.name := "Certification Training (ISO/IEC 42001)";
              Service.description := "Focused training to prepare teams for AI management system certification";
              Service.unit := "Employee";
              Service.duration := 1;
              Service.price := F.of_Z 10000 |});
    ("5.4", {| Service.name := "Certification Training (⁠ISO 14001)";
              Service.description := "Certified training";
              Service.unit := "Employee";
              Service.duration := 1;
              Service.price := F.of_Z 10000 |});
    ("5.5", {| Service.name := "Certification Training (⁠ISO 45001)";
              Service.description := "Certified training";
              Service.unit := "Employee";
              Service.duration := 1;
              Service.price := F.of_Z 10000 |});
    ("5.6", {| Service.name := "Certification Training (⁠ISO 9001)";
              Service.description := "Certified training";
              Service.unit := "Employee";
              Service.duration := 1;
              Service.price := F.of_Z 10000 |});
    ("5.7", {| Service.name := "Certification Training (⁠ISO 50001)";
              Service.description := "Certified training";
              Service.unit := "Employee";
              Service.duration := 1;
              Service.price := F.of_Z 10000 |});
    ("6.0", {| Service.name := "Data Management & AI Infrastructure";
              Service.description := "";
              Service.unit := "Service";
              Service.duration := 36;
              Service.price := F.of_Z 3500000 |});
    ("6.1", {| Service.name := "AI/Data Architecture Design";
              Service.description := "Designing the overall system and data architecture for AI solutions, including databases, data pipelines, and cloud infrastructure";
              Service.unit := "Service";
              Service.duration := 6;
              Service.price := F.of_Z 700000 |});
    ("6.2", {| Service.name := "Data Collection & Integration";
              Service.description := "Setting up data integration pipelines to gather and unify data from various sources (internal systems or external APIs) for AI use";
              Service.unit := "Service";
              Service.duration := 12;
              Service.price := F.of_Z 675000 |});
    ("6.3", {| Service.name := "Secure Data Storage & Cybersecurity";
              Service.description := "Implementing secure data lakes/warehouses and applying cybersecurity best practices (encryption, access controls) to protect sensitive data.";
              Service.unit := "Software & Hardware";
              Service.duration := 6;
              Service.price := F.of_Z 800000 |});
    ("6.4", {| Service.name := "AI Infrastructure & Cloud Deployment";
              Service.description := "Provisioning cloud or on-premise environments for AI model training and deployment, ensuring scalability and compliance with data residency requirements";
              Service.unit := "Software & Hardware";
              Service.duration := 18;
              Service.price := F.of_Z 700000 |});
    ("6.5", {| Service.name := "Interoperability & API Integration";
              Service.description := "Ensuring the AI systems can interconnect with other enterprise systems and external services";
              Service.unit := "Service";
              Service.duration := 8;
              Service.price := F.of_Z 700000 |});
    ("6.6", {| Service.name := "Maintenance & Support Services";
              Service.description := "Ongoing technical support, system monitoring, and model maintenance post-implementation";
              Service.unit := "Service";
              Service.duration := 1;
              Service.price := F.of_Z 650000 |})
  ].

(** The overhead rates are process-wide state; this is their value at
    start-up. *)
Definition DEFAULT_OVERHEAD_COSTS : list (string * num) := [
    ("salaries", PyInt 50000);
    ("utilities", PyInt 15000);
    ("transportation", PyInt 10000);
    ("visas", PyInt 8000);
    ("office_rent", PyInt 20000);
    ("insurance", PyInt 5000)
  ].

(** ** Overhead calculator *)

Definition calculate_overhead (base_costs : num)
    (overhead_costs : list (string * num)) (duration_months : Z) : num :=
  let monthly_overhead := py_sum (dict_values overhead_costs) in
  let total_overhead := py_mul monthly_overhead (PyInt duration_months) in
  py_add (py_mul base_costs (PyFloat (F.decimal 15 2))) total_overhead.

(** ** Deliverable cash-flow engine *)

Module DeliverableData.
Record t : Type := {
  name : string;
  due_date : string;
  service_id : option string;
  amount : option F.t;
  salaries : F.t;
  tools : F.t;
  others : F.t
}.

(** The field constraints of the request model: [amount] is [gt=0] when
    given, the three costs are [ge=0]. *)
Definition valid (d : t) : bool :=
  match amount d with
  | Some a => F.ltb (F.of_Z 0) a
  | None => true
  end
  && F.leb (F.of_Z 0) (salaries d)
  && F.leb (F.of_Z 0) (tools d)
  && F.leb (F.of_Z 0) (others d).
End DeliverableData.

Module ServiceInfo.
Record t : Type := {
  name : string;
  catalog_price : F.t;
  duration : Z;
  unit : string
}.
End ServiceInfo.

Module Deliverable.
Record t : Type := {
  deliverable_name : string;
  due_date : string;
  service_id : option string;
  cash_in : num;
  salaries : num;
  tools : num;
  others : num;
  overhead : num;
  cash_out : num;
  net_flow : num;
  cumulative_net_flow : num;
  is_profitable : bool;
  service_info : option ServiceInfo.t
}.
End Deliverable.

Module Summary.
Record t : Type := {
  total_revenue : num;
  total_costs : num;
  total_profit : num;
  profit_margin : num;
  is_profitable : bool
}.
End Summary.

Module CashFlow.
Record t : Type := {
  deliverables : list Deliverable.t;
  summary : Summary.t
}.
End CashFlow.

(** The two errors the loop raises. *)
Definition unknown_service_error (service_id : string) : exn :=
  HTTPException 400
    [Txt "Service ID "; Txt service_id; Txt " not found in catalog"].

Definition missing_amount_error : exn :=
  HTTPException 400
    [Txt "Amount is required when service ID is not provided"].

(** The service the deliverable refers to, when it names one (an empty
    [service_id] counts as none), and the amount to charge. *)
Definition resolve_amount (deliv_data : DeliverableData.t)
  : result (option Service.t * num) :=
  let without_service :=
    match DeliverableData.amount deliv_data with
    | None => Raise missing_amount_error
    | Some amount => Return (None, PyFloat amount)
    end in
  match DeliverableData.service_id deliv_data with
  | Some service_id =>
      if Str.truthy service_id then
        match dict_get SERVICES_CATALOG service_id with
        | None => Raise (unknown_service_error service_id)
        | Some service_info =>
            match DeliverableData.amount deliv_data with
            | None => Return (Some service_info,
                              PyFloat (Service.price service_info))
            | Some amount => Return (Some service_info, PyFloat amount)
            end
        end
      else without_service
  | None => without_service
  end.

(** One iteration of the loop: the emitted entry and the new running
    total. *)
Definition deliverable_entry (overhead_costs : list (string * num))
    (cumulative_net_flow : num) (deliv_data : DeliverableData.t)
  : result (Deliverable.t * num) :=
  '(service_info, amount) ← resolve_amount deliv_data;
  let base_costs :=
    py_add (py_add (PyFloat (DeliverableData.salaries deliv_data))
                   (PyFloat (DeliverableData.tools deliv_data)))
           (PyFloat (DeliverableData.others deliv_data)) in
  let duration :=
    match service_info with
    | Some s => Service.duration s
    | None => 1
    end in
  let overhead := calculate_overhead base_costs overhead_costs duration in
  let cash_out := py_add base_costs overhead in
  let net_flow := py_sub amount cash_out in
  let cumulative_net_flow := py_add cumulative_net_flow net_flow in
  mret
    ({| Deliverable.deliverable_name := DeliverableData.name deliv_data;
        Deliverable.due_date := DeliverableData.due_date deliv_data;
        Deliverable.service_id := DeliverableData.service_id deliv_data;
        Deliverable.cash_in := amount;
        Deliverable.salaries := PyFloat (DeliverableData.salaries deliv_data);
        Deliverable.tools := PyFloat (DeliverableData.tools deliv_data);
        Deliverable.others := PyFloat (DeliverableData.others deliv_data);
        Deliverable.overhead := overhead;
        Deliverable.cash_out := cash_out;
        Deliverable.net_flow := net_flow;
        Deliverable.cumulative_net_flow := cumulative_net_flow;
        Deliverable.is_profitable := py_gt net_flow (PyInt 0);
        Deliverable.service_info :=
          match service_info with
          | Some s =>
              Some {| ServiceInfo.name := Service.name s;
                      ServiceInfo.catalog_price := Service.price s;
                      ServiceInfo.duration := Service.duration s;
                      ServiceInfo.unit := Service.unit s |}
          | None => None
          end |},
     cumulative_net_flow).

(** The [for] loop over the request, threading the list built so far and
    the running total. *)
Fixpoint cashflow_loop (overhead_costs : list (string * num))
    (request : list DeliverableData.t) (deliverables : list Deliverable.t)
    (cumulative_net_flow : num) : result (list Deliverable.t * num) :=
  match request with
  | [] => Return (deliverables, cumulative_net_flow)
  | deliv_data :: rest =>
      '(deliverable, cumulative_net_flow) ←
        deliverable_entry overhead_costs cumulative_net_flow deliv_data;
      cashflow_loop overhead_costs rest (deliverables ++ [deliverable])
                    cumulative_net_flow
  end.

Definition cashflow_summary (deliverables : list Deliverable.t)
  : result Summary.t :=
  let total_revenue := py_sum (map Deliverable.cash_in deliverables) in
  let total_costs := py_sum (map Deliverable.cash_out deliverables) in
  let total_profit := py_sub total_revenue total_costs in
  profit_margin ←
    (if py_gt total_revenue (PyInt 0)
     then quotient ← py_truediv total_profit total_revenue;
          mret (py_mul quotient (PyInt 100))
     else mret (PyInt 0));
  mret {| Summary.total_revenue := total_revenue;
          Summary.total_costs := total_costs;
          Summary.total_profit := total_profit;
          Summary.profit_margin := py_round2 profit_margin;
          Summary.is_profitable := py_gt total_profit (PyInt 0) |}.

(** What the handler around the endpoint's body raises for [e]. *)
Definition cashflow_failure (e : exn) : exn :=
  HTTPException 500 (Txt "Error calculating cash flow: " :: str_exn e).

(** [POST /api/cashflow/deliverables].  [overhead_costs] is the current
    value of the process-wide overhead rates. *)
Definition calculate_deliverable_cashflow
    (overhead_costs : list (string * num))
    (request : list DeliverableData.t) : result CashFlow.t :=
  try_except
    ('(deliverables, _) ← cashflow_loop overhead_costs request [] (PyInt 0);
     summary ← cashflow_summary deliverables;
     mret {| CashFlow.deliverables := deliverables;
             CashFlow.summary := summary |})
    (fun e => Raise (cashflow_failure e)).

(** ** Clock, identifiers and the proposal store *)

(** What the program reads of a [datetime]: two [strftime] renderings and
    [isoformat]. *)
Module DateTime.
Record t : Type := {
  compact : string;   (* strftime('%Y%m%d') *)
  dashed : string;    (* strftime('%Y-%m-%d') *)
  isoformat : string
}.
End DateTime.

(** The surroundings of one request: the value of the k-th call of
    [datetime.now()], the text of the [uuid.uuid4()] drawn, and
    [datetime.strptime(s, '%Y-%m-%d')] as the day number of the parsed
    date, or the [ValueError] it raises. *)
Module Env.
Record t : Type := {
  now : nat -> DateTime.t;
  uuid4 : string;
  strptime : string -> result Z
}.
End Env.

Definition generate_quotation_code (now : DateTime.t) (uuid4 : string)
  : string :=
  "MUT-" +:+ DateTime.compact now +:+ "-"
  +:+ Str.upper (Str.prefix 8 uuid4).

Module ProjectMetadata.
Record t : Type := {
  project_name_en : string;
  project_name_ar : string;
  client_name_en : string;
  client_name_ar : string;
  project_type : string;
  boq_type : string;
  num_deliverables : Z;
  start_date : string;
  end_date : string;
  rfp_code : string
}.
End ProjectMetadata.

(** [{**metadata.dict(), 'duration_months': ..., ...}]. *)
Module ProcessedMetadata.
Record t : Type := {
  fields : ProjectMetadata.t;
  duration_months : num;
  quotation_code : string;
  version_name : string;
  created_on : string
}.
End ProcessedMetadata.

Module PaymentTerm.
Record t : Type := {
  description : string;
  percentage : F.t
}.

(** Field constraints: [gt=0, le=100]. *)
Definition valid (term : t) : bool :=
  F.ltb (F.of_Z 0) (percentage term) && F.leb (percentage term) (F.of_Z 100).
End PaymentTerm.

Module ProposalItem.
Record t : Type := {
  description : string;
  quantity : Z;
  unit_price : F.t;
  total_price : F.t
}.

(** Field constraints: all three numbers [gt=0]. *)
Definition valid (item : t) : bool :=
  (0 <? quantity item)
  && F.ltb (F.of_Z 0) (unit_price item)
  && F.ltb (F.of_Z 0) (total_price item).
End ProposalItem.

Module FinalProposalRequest.
Record t : Type := {
  proposal_items : list ProposalItem.t;
  payment_terms : list PaymentTerm.t
}.

Definition valid (request : t) : bool :=
  forallb ProposalItem.valid (proposal_items request)
  && forallb PaymentTerm.valid (payment_terms request).
End FinalProposalRequest.

(** A payment term annotated with its amount. *)
Module TermAmount.
Record t : Type := {
  description : string;
  percentage : num;
  amount : num
}.
End TermAmount.

Module Proposal.
Record t : Type := {
  date : string;
  offer_number : string;
  items : list ProposalItem.t;
  total_amount : num;
  payment_terms : list TermAmount.t;
  currency : string;
  created_at : string
}.
End Proposal.

(** A stored record is a dict; its values are of these three shapes. *)
Inductive stored : Type :=
| StoredMetadata (metadata : ProcessedMetadata.t)
| StoredProposal (proposal : Proposal.t)
| StoredText (s : string).

(** [proposals_storage]: quotation code to record. *)
Abbreviation storage := (gmap string (gmap string stored)).

(** ** Project metadata *)

Definition calculate_duration_months (env : Env.t)
    (start_date end_date : string) : result num :=
  start ← Env.strptime env start_date;
  end_ ← Env.strptime env end_date;
  months ← py_truediv (PyInt (end_ - start)) (PyFloat (F.decimal 3044 2));
  py_round months.

Module MetadataResponse.
Record t : Type := {
  success : bool;
  quotation_code : string;
  metadata : ProcessedMetadata.t
}.
End MetadataResponse.

Definition is_value_error (e : exn) : bool :=
  match e with
  | PyException cls _ => String.eqb cls "ValueError"
  | HTTPException _ _ => false
  end.

(** [POST /api/metadata]: the new store and the response.  A raised result
    leaves the store as it was. *)
Definition create_project_metadata (env : Env.t)
    (proposals_storage : storage) (metadata : ProjectMetadata.t)
  : result (storage * MetadataResponse.t) :=
  try_except
    (start_date ← Env.strptime env (ProjectMetadata.start_date metadata);
     end_date ← Env.strptime env (ProjectMetadata.end_date metadata);
     if end_date <=? start_date
     then Raise (HTTPException 400 [Txt "End date must be after start date"])
     else
       duration_months ←
         calculate_duration_months env
           (ProjectMetadata.start_date metadata)
           (ProjectMetadata.end_date metadata);
       let quotation_code :=
         generate_quotation_code (Env.now env 0) (Env.uuid4 env) in
       let processed_metadata :=
         {| ProcessedMetadata.fields := metadata;
            ProcessedMetadata.duration_months := duration_months;
            ProcessedMetadata.quotation_code := quotation_code;
            ProcessedMetadata.version_name := "v1.0";
            ProcessedMetadata.created_on := DateTime.dashed (Env.now env 1)
         |} in
       let record : gmap string stored :=
         <["created_at" :=
             StoredText (DateTime.isoformat (Env.now env 2))]>
           (<["metadata" := StoredMetadata processed_metadata]> ∅) in
       mret (<[quotation_code := record]> proposals_storage,
             {| MetadataResponse.success := true;
                MetadataResponse.quotation_code := quotation_code;
                MetadataResponse.metadata := processed_metadata |}))
    (fun e =>
       if is_value_error e
       then Raise (HTTPException 400
                     (Txt "Invalid date format: " :: str_exn e))
       else Raise (HTTPException 500
                     (Txt "Error processing metadata: " :: str_exn e))).

(** ** Proposal assembler *)

(** The loop that annotates each payment term with its amount. *)
Fixpoint payment_amounts (total_amount : num) (terms : list PaymentTerm.t)
    (payment_terms_with_amounts : list TermAmount.t)
  : result (list TermAmount.t) :=
  match terms with
  | [] => Return payment_terms_with_amounts
  | term :: rest =>
      share ← py_truediv (PyFloat (PaymentTerm.percentage term)) (PyInt 100);
      payment_amounts total_amount rest
        (payment_terms_with_amounts ++
         [{| TermAmount.description := PaymentTerm.description term;
             TermAmount.percentage := PyFloat (PaymentTerm.percentage term);
             TermAmount.amount := py_mul total_amount share |}])
  end.

Module ProposalResponse.
Record t : Type := {
  success : bool;
  quotation_code : string;
  proposal : Proposal.t
}.
End ProposalResponse.

Definition total_percentage (terms : list PaymentTerm.t) : num :=
  py_sum (map (fun term => PyFloat (PaymentTerm.percentage term)) terms).

(** [abs(total_percentage - 100) > 0.01]. *)
Definition percentage_mismatch (total_percentage : num) : bool :=
  py_gt (py_abs (py_sub total_percentage (PyInt 100)))
        (PyFloat (F.decimal 1 2)).

Definition payment_term_mismatch_error (total_percentage : num) : exn :=
  HTTPException 400
    [Txt "Payment terms must sum to 100%. Current sum: ";
     StrOf total_percentage; Txt "%"].

(** What the handler around the endpoint's body raises for [e]. *)
Definition proposal_failure (e : exn) : exn :=
  HTTPException 500 (Txt "Error creating proposal: " :: str_exn e).

(** [POST /api/proposal/create]: the new store and the response. *)
Definition create_financial_proposal (env : Env.t)
    (proposals_storage : storage) (request : FinalProposalRequest.t)
  : result (storage * ProposalResponse.t) :=
  try_except
    (let total_percentage :=
       total_percentage (FinalProposalRequest.payment_terms request) in
     if percentage_mismatch total_percentage
     then Raise (payment_term_mismatch_error total_percentage)
     else
       let total_amount :=
         py_sum (map (fun item => PyFloat (ProposalItem.total_price item))
                     (FinalProposalRequest.proposal_items request)) in
       payment_terms_with_amounts ←
         payment_amounts total_amount
           (FinalProposalRequest.payment_terms request) [];
       let quotation_code :=
         generate_quotation_code (Env.now env 0) (Env.uuid4 env) in
       let proposal :=
         {| Proposal.date := DateTime.dashed (Env.now env 1);
            Proposal.offer_number := quotation_code;
            Proposal.items := FinalProposalRequest.proposal_items request;
            Proposal.total_amount := total_amount;
            Proposal.payment_terms := payment_terms_with_amounts;
            Proposal.currency := "SAR";
            Proposal.created_at := DateTime.isoformat (Env.now env 2) |} in
       let record : gmap string stored :=
         <["created_at" :=
             StoredText (DateTime.isoformat (Env.now env 3))]>
           (<["proposal" := StoredProposal proposal]> ∅) in
       mret (<[quotation_code := record]> proposals_storage,
             {| ProposalResponse.success := true;
                ProposalResponse.quotation_code := quotation_code;
                ProposalResponse.proposal := proposal |}))
    (fun e => Raise (proposal_failure e)).

(** ** Stored proposals and the summary formatter *)

(** [DELETE /api/proposal/{quotation_code}]. *)
Definition delete_proposal (proposals_storage : storage)
    (quotation_code : string) : result storage :=
  match proposals_storage !! quotation_code with
  | None => Raise (HTTPException 404 [Txt "Proposal not found"])
  | Some _ => Return (delete quotation_code proposals_storage)
  end.

Definition LF : string := String (ascii_of_nat 10) EmptyString.

(** The item lines, numbered from [i]. *)
Fixpoint summary_items (i : Z) (items : list ProposalItem.t) : text :=
  match items with
  | [] => []
  | item :: rest =>
      [StrOf (PyInt i); Txt ". "; Txt (ProposalItem.description item);
       Txt LF;
       Txt "   Quantity: "; StrOf (PyInt (ProposalItem.quantity item));
       Txt " | Unit Price: ";
       Money (PyFloat (ProposalItem.unit_price item)); Txt " SAR"; Txt LF;
       Txt "   Total: "; Money (PyFloat (ProposalItem.total_price item));
       Txt " SAR"; Txt LF; Txt LF]
      ++ summary_items (i + 1) rest
  end.

(** The payment-term lines, numbered from [i]. *)
Fixpoint summary_terms (i : Z) (terms : list TermAmount.t) : text :=
  match terms with
  | [] => []
  | term :: rest =>
      [StrOf (PyInt i); Txt ". "; Txt (TermAmount.description term);
       Txt ": "; StrOf (TermAmount.percentage term); Txt "% = ";
       Money (TermAmount.amount term); Txt " SAR"; Txt LF]
      ++ summary_terms (i + 1) rest
  end.

(** The text built when a record holds both entries.  The metadata fields
    are always present in a [ProcessedMetadata], so the ['N/A'] defaults
    of the lookups are never taken. *)
Definition format_summary (metadata : ProcessedMetadata.t)
    (proposal : Proposal.t) : text :=
  let fields := ProcessedMetadata.fields metadata in
  [Txt LF; Txt "=== MUTAWAZI FINANCIAL PROPOSAL ==="; Txt LF; Txt LF;
   Txt "Project: "; Txt (ProjectMetadata.project_name_en fields);
   Txt " / "; Txt (ProjectMetadata.project_name_ar fields); Txt LF;
   Txt "Client: "; Txt (ProjectMetadata.client_name_en fields);
   Txt " / "; Txt (ProjectMetadata.client_name_ar fields); Txt LF;
   Txt "RFP Code: "; Txt (ProjectMetadata.rfp_code fields); Txt LF;
   Txt "Offer Number: "; Txt (Proposal.offer_number proposal); Txt LF;
   Txt "Date: "; Txt (Proposal.date proposal); Txt LF;
   Txt "Duration: "; StrOf (ProcessedMetadata.duration_months metadata);
   Txt " months"; Txt LF; Txt LF;
   Txt "PROJECT ITEMS:"; Txt LF]
  ++ summary_items 1 (Proposal.items proposal)
  ++ [Txt LF; Txt "TOTAL PROJECT VALUE: ";
      Money (Proposal.total_amount proposal); Txt " SAR"; Txt LF; Txt LF]
  ++ [Txt "PAYMENT TERMS:"; Txt LF]
  ++ summary_terms 1 (Proposal.payment_terms proposal).

(** [GET /api/proposal/{quotation_code}/summary]: the value under
    ["summary"] in the response.  A value of another shape under
    ['metadata'] or ['proposal'] makes the field accesses raise. *)
Definition get_proposal_summary (proposals_storage : storage)
    (quotation_code : string) : result text :=
  match proposals_storage !! quotation_code with
  | None => Raise (HTTPException 404 [Txt "Proposal not found"])
  | Some data =>
      match data !! "metadata", data !! "proposal" with
      | Some metadata, Some proposal =>
          match metadata, proposal with
          | StoredMetadata metadata, StoredProposal proposal =>
              Return (format_summary metadata proposal)
          | _, _ =>
              Raise (PyException "TypeError" [Txt "unexpected record shape"])
          end
      | _, _ => Return [Txt "Incomplete proposal data"]
      end
  end.

(** ** Price justification *)

(** What the external text generator does with a prompt: it raises
    (while being configured, while generating, or when the text of its
    response is read), or it hands back a response that is empty ([None])
    or carries a text. *)
Inductive provider_outcome : Type :=
| ProviderRaises (e : exn)
| ProviderResponse (response : option string).

Module Provider.
Record t : Type := {
  GEMINI_API_KEY : option string;        (* os.getenv("GEMINI_API_KEY") *)
  generate_content : text -> provider_outcome
}.
End Provider.

Definition justification_prompt (service : Service.t) (proposed_price : F.t)
  : text :=
  [Txt LF;
   Txt "        You are a pricing consultant for Mutawazi, a leading AI consulting company in Saudi Arabia.";
   Txt LF; Txt "        "; Txt LF;
   Txt "        Service Details:"; Txt LF;
   Txt "        - Service: "; Txt (Service.name service); Txt LF;
   Txt "        - Description: "; Txt (Service.description service); Txt LF;
   Txt "        - Our catalog price: ";
   Money (PyFloat (Service.price service)); Txt " SAR"; Txt LF;
   Txt "        - Proposed client price: ";
   Money (PyFloat proposed_price); Txt " SAR"; Txt LF;
   Txt "        - Duration: "; StrOf (PyInt (Service.duration service));
   Txt " months"; Txt LF;
   Txt "        "; Txt LF;
   Txt "        Generate a professional justification (2-3 sentences) that:";
   Txt LF;
   Txt "        1. Compares our price to Saudi market standards for similar AI services";
   Txt LF;
   Txt "        2. Highlights our unique value proposition"; Txt LF;
   Txt "        3. Explains why this price represents excellent value";
   Txt LF;
   Txt "        4. Uses confident, professional language suitable for client proposals";
   Txt LF;
   Txt "        "; Txt LF;
   Txt "        Write in formal business English. Do not mention competitors by name.";
   Txt LF; Txt "        "].

Definition SERVICE_NOT_FOUND : string := "Service not found in catalog".

Definition KEY_NOT_CONFIGURED : string :=
  "Please configure GEMINI_API_KEY in your environment variables. Contact your system administrator to set up AI price analysis.".

Definition EMPTY_RESPONSE : string :=
  "AI analysis indicates this pricing is competitive for the Saudi market and reflects our premium service quality and expertise.".

Definition PROVIDER_FAILED : string :=
  "Our pricing analysis shows this service is competitively priced for the Saudi AI consulting market. The price reflects Mutawazi's expertise, proven methodologies, and comprehensive service delivery approach that ensures successful project outcomes.".

Definition key_configured (key : option string) : bool :=
  match key with
  | Some k => Str.truthy k
  | None => false
  end.

Definition generate_price_justification (provider : Provider.t)
    (service_id : string) (proposed_price : F.t) : result string :=
  try_except
    (match dict_get SERVICES_CATALOG service_id with
     | None => Return SERVICE_NOT_FOUND
     | Some service =>
         if negb (key_configured (Provider.GEMINI_API_KEY provider))
         then Return KEY_NOT_CONFIGURED
         else
           match Provider.generate_content provider
                   (justification_prompt service proposed_price) with
           | ProviderRaises e => Raise e
           | ProviderResponse (Some response_text) =>
               if Str.truthy response_text
               then Return (Str.strip response_text)
               else Return EMPTY_RESPONSE
           | ProviderResponse None => Return EMPTY_RESPONSE
           end
     end)
    (fun e => Return PROVIDER_FAILED).

Module JustificationResponse.
Record t : Type := {
  service_id : string;
  proposed_price : F.t;
  justification : string
}.
End JustificationResponse.

(** [POST /api/price_justification]. *)
Definition generate_price_justification_endpoint (provider : Provider.t)
    (service_id : string) (proposed_price : F.t)
  : result JustificationResponse.t :=
  try_except
    (justification ←
       generate_price_justification provider service_id proposed_price;
     mret {| JustificationResponse.service_id := service_id;
             JustificationResponse.proposed_price := proposed_price;
             JustificationResponse.justification := justification |})
    (fun e =>
       Raise (HTTPException 500
                (Txt "Error generating price justification: " :: str_exn e))).


(** ** Readiness assessment *)

Definition READINESS_QUESTIONS : list string := [
    "I have read and understood the scope";
    "This project is within our mandate";
    "I have aligned internally that I will do pricing";
    "The contract type is understood (Fixed, Deliverables-Based, or Framework)";
    "I have checked if there is an existing rate card or similar past proposal";
    "I understand whether this is a monthly resource BoQ or milestone BoQ";
    "I know the expected duration of the project or agreement"
  ].

Module ReadinessResponse.
Record t : Type := {
  score : num;
  status : string;
  can_proceed : bool;
  questions : list string
}.
End ReadinessResponse.

(** The value stored under ['readiness'] in a session. *)
Module Readiness.
Record t : Type := {
  score : num;
  status : string;
  can_proceed : bool;
  answers : list bool
}.
End Readiness.

(** A [bool] is an [int] in arithmetic: [True] is 1 and [False] is 0. *)
Definition py_bool (b : bool) : num := PyInt (Z.b2z b).

(** [POST /api/readiness/assess].  [uuid4] is the text of the identifier
    drawn for the session, [current_session] the process-wide session
    dict; the count of the answers is checked outside any handler. *)
Definition assess_readiness (uuid4 : string)
    (current_session : gmap string Readiness.t) (answers : list bool)
  : result (gmap string Readiness.t * ReadinessResponse.t) :=
  if negb (length answers =? 7)%nat
  then Raise (HTTPException 400 [Txt "Must provide exactly 7 answers"])
  else
    let score := py_sum (map py_bool answers) in
    let '(status, can_proceed) :=
      if py_ge score (PyInt 7) then ("✅ Ready", true)
      else if py_ge score (PyInt 6) then ("⚠️ Partial", true)
      else ("❌ Not Ready", false) in
    let session_id := uuid4 in
    Return
      (<[session_id :=
           {| Readiness.score := score;
              Readiness.status := status;
              Readiness.can_proceed := can_proceed;
              Readiness.answers := answers |}]> current_session,
       {| ReadinessResponse.score := score;
          ReadinessResponse.status := status;
          ReadinessResponse.can_proceed := can_proceed;
          ReadinessResponse.questions := READINESS_QUESTIONS |}).

(** ** Catalog endpoints *)

(** [GET /api/services]: the catalog and the number of its entries. *)
Definition get_services_catalog : list (string * Service.t) * Z :=
  (SERVICES_CATALOG, Z.of_nat (length SERVICES_CATALOG)).

(** [GET /api/services/{service_id}]: the id together with the entry. *)
Definition get_service_by_id (service_id : string)
  : result (string * Service.t) :=
  match dict_get SERVICES_CATALOG service_id with
  | None => Raise (HTTPException 404 [Txt "Service not found"])
  | Some service => Return (service_id, service)
  end.

(** ** Overhead configuration *)

(** The request model of the update: six numbers, each with a default. *)
Module OverheadCosts.
Record t : Type := {
  salaries : num;
  utilities : num;
  transportation : num;
  visas : num;
  office_rent : num;
  insurance : num
}.

(** [overhead.dict()]: the fields in declaration order. *)
Definition dict (overhead : t) : list (string * num) :=
  [("salaries", salaries overhead);
   ("utilities", utilities overhead);
   ("transportation", transportation overhead);
   ("visas", visas overhead);
   ("office_rent", office_rent overhead);
   ("insurance", insurance overhead)].
End OverheadCosts.

(** [d[key] = value]: an existing key keeps its place, a new key goes to
    the end. *)
Fixpoint dict_set {V : Type} (d : list (string * V)) (key : string)
    (value : V) : list (string * V) :=
  match d with
  | [] => [(key, value)]
  | (k, v) :: rest =>
      if String.eqb k key then (k, value) :: rest
      else (k, v) :: dict_set rest key value
  end.

(** [d.update(other)]. *)
Definition dict_update {V : Type} (d other : list (string * V))
  : list (string * V) :=
  fold_left (fun acc item => dict_set acc (fst item) (snd item)) other d.

(** [GET /api/overhead]. *)
Definition get_overhead_costs (overhead_costs : list (string * num))
  : list (string * num) :=
  overhead_costs.

(** [PUT /api/overhead]: the new value of the process-wide rates, which
    is also what the response shows. *)
Definition update_overhead_costs (overhead_costs : list (string * num))
    (overhead : OverheadCosts.t) : list (string * num) :=
  dict_update overhead_costs (OverheadCosts.dict overhead).

(** ** Reading the store *)

(** [GET /api/proposal/{quotation_code}]. *)
Definition get_proposal (proposals_storage : storage)
    (quotation_code : string) : result (gmap string stored) :=
  match proposals_storage !! quotation_code with
  | None => Raise (HTTPException 404 [Txt "Proposal not found"])
  | Some data => Return data
  end.

(** * Auxiliary notions for the statements *)



(** The loop of the cash-flow engine without its accumulator: the entries
    emitted for a request when the running total starts at a given
    value. *)
Fixpoint emitted (overhead_costs : list (string * num))
    (cumulative_net_flow : num) (request : list DeliverableData.t)
  : result (list Deliverable.t) :=
  match request with
  | [] => Return []
  | deliv_data :: rest =>
      '(deliverable, cumulative_net_flow) ←
        deliverable_entry overhead_costs cumulative_net_flow deliv_data;
      deliverables ← emitted overhead_costs cumulative_net_flow rest;
      mret (deliverable :: deliverables)
  end.

(** The running total after a list of entries. *)
Definition final_total (start : num) (deliverables : list Deliverable.t)
  : num :=
  match last deliverables with
  | Some d => Deliverable.cumulative_net_flow d
  | None => start
  end.

(** A deliverable names no service: [service_id] is absent or empty. *)
Definition no_service (deliv_data : DeliverableData.t) : bool :=
  match DeliverableData.service_id deliv_data with
  | Some service_id => negb (Str.truthy service_id)
  | None => true
  end.


(** A payment term annotated as the assembler's loop does it:
    [amount = total_amount * (percentage / 100)]. *)
Definition annotate (total_amount : num) (term : PaymentTerm.t)
  : TermAmount.t :=
  {| TermAmount.description := PaymentTerm.description term;
     TermAmount.percentage := PyFloat (PaymentTerm.percentage term);
     TermAmount.amount :=
       py_mul total_amount
              (PyFloat (F.div (PaymentTerm.percentage term) (F.of_Z 100))) |}.

(** The sum of the line items' total_price values. *)
Definition items_total (items : list ProposalItem.t) : num :=
  py_sum (map (fun item => PyFloat (ProposalItem.total_price item)) items).

(** The proposal the assembler builds for an accepted request. *)
Definition assembled (env : Env.t) (request : FinalProposalRequest.t)
  : Proposal.t :=
  let total_amount :=
    items_total (FinalProposalRequest.proposal_items request) in
  {| Proposal.date := DateTime.dashed (Env.now env 1);
     Proposal.offer_number :=
       generate_quotation_code (Env.now env 0) (Env.uuid4 env);
     Proposal.items := FinalProposalRequest.proposal_items request;
     Proposal.total_amount := total_amount;
     Proposal.payment_terms :=
       map (annotate total_amount)
           (FinalProposalRequest.payment_terms request);
     Proposal.currency := "SAR";
     Proposal.created_at := DateTime.isoformat (Env.now env 2) |}.


(** The stores the two creating operations can build, starting from the
    empty store the process begins with; deleting a record is allowed as
    well. *)
Inductive reachable : storage -> Prop :=
| reachable_empty : reachable ∅
| reachable_metadata (env : Env.t) (proposals_storage : storage)
    (metadata : ProjectMetadata.t) (proposals_storage' : storage)
    (response : MetadataResponse.t) :
    reachable proposals_storage ->
    create_project_metadata env proposals_storage metadata
    = Return (proposals_storage', response) ->
    reachable proposals_storage'
| reachable_proposal (env : Env.t) (proposals_storage : storage)
    (request : FinalProposalRequest.t) (proposals_storage' : storage)
    (response : ProposalResponse.t) :
    reachable proposals_storage ->
    create_financial_proposal env proposals_storage request
    = Return (proposals_storage', response) ->
    reachable proposals_storage'
| reachable_delete (proposals_storage : storage) (quotation_code : string)
    (proposals_storage' : storage) :
    reachable proposals_storage ->
    delete_proposal proposals_storage quotation_code
    = Return proposals_storage' ->
    reachable proposals_storage'.

(** A stored record with exactly one of the two entries. *)
Definition metadata_only (record : gmap string stored) : Prop :=
  is_Some (record !! "metadata") /\ record !! "proposal" = None.

Definition proposal_only (record : gmap string stored) : Prop :=
  is_Some (record !! "proposal") /\ record !! "metadata" = None.

(** ** Example inputs *)

(** The worked example of the cash-flow engine. *)
Definition example_D1 (due_date : string) : DeliverableData.t :=
  {| DeliverableData.name := "D1";
     DeliverableData.due_date := due_date;
     DeliverableData.service_id := Some "1.2";
     DeliverableData.amount := None;
     DeliverableData.salaries := F.of_Z 1000;
     DeliverableData.tools := F.of_Z 200;
     DeliverableData.others := F.of_Z 50 |}.

(** A second deliverable: no service, an explicit amount. *)
Definition example_D2 : DeliverableData.t :=
  {| DeliverableData.name := "D2";
     DeliverableData.due_date := "2025-06-30";
     DeliverableData.service_id := None;
     DeliverableData.amount := Some (F.of_Z 500000);
     DeliverableData.salaries := F.of_Z 20000;
     DeliverableData.tools := F.of_Z 1500;
     DeliverableData.others := F.decimal 2505 1 |}.

(** Service 1.2 charged at an explicit 25000 instead of its catalog
    price. *)
Definition example_D3 : DeliverableData.t :=
  {| DeliverableData.name := "D3";
     DeliverableData.due_date := "2025-09-30";
     DeliverableData.service_id := Some "1.2";
     DeliverableData.amount := Some (F.of_Z 25000);
     DeliverableData.salaries := F.of_Z 1000;
     DeliverableData.tools := F.of_Z 0;
     DeliverableData.others := F.of_Z 0 |}.

(** A deliverable with neither a service nor an amount, and one naming a
    service the catalog does not have. *)
Definition example_no_amount : DeliverableData.t :=
  {| DeliverableData.name := "D4";
     DeliverableData.due_date := "2025-10-31";
     DeliverableData.service_id := None;
     DeliverableData.amount := None;
     DeliverableData.salaries := F.of_Z 100;
     DeliverableData.tools := F.of_Z 0;
     DeliverableData.others := F.of_Z 0 |}.

Definition example_unknown_service : DeliverableData.t :=
  {| DeliverableData.name := "D5";
     DeliverableData.due_date := "2025-11-30";
     DeliverableData.service_id := Some "9.9";
     DeliverableData.amount := Some (F.of_Z 100);
     DeliverableData.salaries := F.of_Z 100;
     DeliverableData.tools := F.of_Z 0;
     DeliverableData.others := F.of_Z 0 |}.

(** Surroundings for the examples. *)
Definition example_now : DateTime.t :=
  {| DateTime.compact := "20250115";
     DateTime.dashed := "2025-01-15";
     DateTime.isoformat := "2025-01-15T10:30:00.123456" |}.

Definition example_env : Env.t :=
  {| Env.now := fun _ => example_now;
     Env.uuid4 := "3f2a9c1e-5b7d-4e1a-9c3b-8f6d2a1b0c4e";
     Env.strptime := fun s =>
       if String.eqb s "2025-01-01" then Return 739252
       else if String.eqb s "2025-12-31" then Return 739616
       else Raise (PyException "ValueError"
                     [Txt "time data does not match format"]) |}.

Definition example_term (description : string) (percentage : Z)
  : PaymentTerm.t :=
  {| PaymentTerm.description := description;
     PaymentTerm.percentage := F.of_Z percentage |}.

Definition example_item (description : string) (total_price : Z)
  : ProposalItem.t :=
  {| ProposalItem.description := description;
     ProposalItem.quantity := 1;
     ProposalItem.unit_price := F.of_Z total_price;
     ProposalItem.total_price := F.of_Z total_price |}.

(** Two line items totalling 500000, paid 40% and 60%. *)
Definition example_proposal : FinalProposalRequest.t :=
  {| FinalProposalRequest.proposal_items :=
       [example_item "Assessment" 200000; example_item "Roadmap" 300000];
     FinalProposalRequest.payment_terms :=
       [example_term "Kickoff" 40; example_term "Completion" 60] |}.


(** One line item of 99999, paid 30% and 70%. *)
Definition example_uneven : FinalProposalRequest.t :=
  {| FinalProposalRequest.proposal_items := [example_item "Audit" 99999];
     FinalProposalRequest.payment_terms :=
       [example_term "Kickoff" 30; example_term "Completion" 70] |}.

Definition example_metadata : ProjectMetadata.t :=
  {| ProjectMetadata.project_name_en := "AI Office";
     ProjectMetadata.project_name_ar := "AI Office (ar)";
     ProjectMetadata.client_name_en := "Client";
     ProjectMetadata.client_name_ar := "Client (ar)";
     ProjectMetadata.project_type := "fixed";
     ProjectMetadata.boq_type := "deliverable-based";
     ProjectMetadata.num_deliverables := 3;
     ProjectMetadata.start_date := "2025-01-01";
     ProjectMetadata.end_date := "2025-12-31";
     ProjectMetadata.rfp_code := "RFP-001" |}.

(** A provider that answers with padded text, and one that raises. *)
Definition example_provider : Provider.t :=
  {| Provider.GEMINI_API_KEY := Some "key";
     Provider.generate_content := fun _ =>
       ProviderResponse (Some "  The price is fair.  ") |}.

Definition example_failing_provider : Provider.t :=
  {| Provider.GEMINI_API_KEY := Some "key";
     Provider.generate_content := fun _ =>
       ProviderRaises (PyException "ResourceExhausted" [Txt "quota"]) |}.

(** * Auxiliary notions for further properties *)

(** How many of the answers are [b]. *)
Definition answers_equal (b : bool) (answers : list bool) : nat :=
  count_occ Bool.bool_dec answers b.

(** A month count [m] is right for a number of days when it is the
    integer nearest to [days / 30.44]: [|30.44 m - days| <= 15.22],
    written in hundredths. *)
Definition nearest_month_count (days m : Z) : bool :=
  Z.abs (3044 * m - 100 * days) <=? 1522.

(** The rounded quotient, for a divisor given as a double, and a check
    of it over the [n] day counts from [days] on. *)
Definition month_count_right (divisor : F.t) (days : Z) : bool :=
  match
    months ← py_truediv (PyInt days) (PyFloat divisor); py_round months
  with
  | Return (PyInt m) => nearest_month_count days m
  | _ => false
  end.

Fixpoint month_counts_right (divisor : F.t) (n : nat) (days : Z) : bool :=
  match n with
  | O => true
  | S n' =>
      if month_count_right divisor days
      then month_counts_right divisor n' (days + 1)
      else false
  end.

(** Metadata whose dates are in the wrong order. *)
Definition example_reversed_metadata : ProjectMetadata.t :=
  {| ProjectMetadata.project_name_en := "AI Office";
     ProjectMetadata.project_name_ar := "AI Office (ar)";
     ProjectMetadata.client_name_en := "Client";
     ProjectMetadata.client_name_ar := "Client (ar)";
     ProjectMetadata.project_type := "fixed";
     ProjectMetadata.boq_type := "deliverable-based";
     ProjectMetadata.num_deliverables := 3;
     ProjectMetadata.start_date := "2025-12-31";
     ProjectMetadata.end_date := "2025-01-01";
     ProjectMetadata.rfp_code := "RFP-001" |}.

(** A deliverable the loop can price: it names a service of the catalog,
    or it names none and gives an amount. *)
Definition resolvable (deliv_data : DeliverableData.t) : bool :=
  match DeliverableData.service_id deliv_data with
  | Some service_id =>
      if Str.truthy service_id
      then bool_decide (is_Some (dict_get SERVICES_CATALOG service_id))
      else bool_decide (is_Some (DeliverableData.amount deliv_data))
  | None => bool_decide (is_Some (DeliverableData.amount deliv_data))
  end.

(** The direct costs of a deliverable: salaries, tools and others, added
    in this order. *)
Definition base_costs (deliv_data : DeliverableData.t) : num :=
  py_add (py_add (PyFloat (DeliverableData.salaries deliv_data))
                 (PyFloat (DeliverableData.tools deliv_data)))
         (PyFloat (DeliverableData.others deliv_data)).

(** The six keys of the overhead rates, in their order. *)
Definition OVERHEAD_KEYS : list string :=
  ["salaries"; "utilities"; "transportation"; "visas"; "office_rent";
   "insurance"].

(** A request with line items and no payment terms. *)
Definition without_terms (items : list ProposalItem.t)
  : FinalProposalRequest.t :=
  {| FinalProposalRequest.proposal_items := items;
     FinalProposalRequest.payment_terms := [] |}.

(** Rates of 1000.5 for salaries and the defaults elsewhere. *)
Definition example_overhead : OverheadCosts.t :=
  {| OverheadCosts.salaries := PyFloat (F.decimal 10005 1);
     OverheadCosts.utilities := PyInt 15000;
     OverheadCosts.transportation := PyInt 10000;
     OverheadCosts.visas := PyInt 8000;
     OverheadCosts.office_rent := PyInt 20000;
     OverheadCosts.insurance := PyInt 5000 |}.

(** * Properties *)

(** ** Overhead calculator *)



(** ** The cash-flow loop *)

Lemma deliverable_entry_total (overhead_costs : list (string * num))
    (c : num) (deliv_data : DeliverableData.t) (d : Deliverable.t)
    (c' : num) :
  deliverable_entry overhead_costs c deliv_data = Return (d, c') ->
  c' = Deliverable.cumulative_net_flow d
  /\ Deliverable.cumulative_net_flow d = py_add c (Deliverable.net_flow d).
Proof.
  unfold deliverable_entry.
  destruct (resolve_amount deliv_data) as [[service_info amount]|e];
    simpl; [|discriminate].
  intros H. injection H as <- <-. split; reflexivity.
Qed.

Lemma cashflow_loop_emitted (overhead_costs : list (string * num))
    (request : list DeliverableData.t) :
  forall (deliverables : list Deliverable.t) (c : num),
    cashflow_loop overhead_costs request deliverables c =
    match emitted overhead_costs c request with
    | Return new => Return (deliverables ++ new, final_total c new)
    | Raise e => Raise e
    end.
Proof.
  induction request as [|deliv_data rest IH]; intros deliverables c; simpl.
  - rewrite app_nil_r. reflexivity.
  - destruct (deliverable_entry overhead_costs c deliv_data)
      as [[d c']|e] eqn:Hentry; simpl; [|reflexivity].
    rewrite IH.
    destruct (emitted overhead_costs c' rest) as [new|e]; simpl;
      [|reflexivity].
    rewrite <- app_assoc. simpl. f_equal. f_equal.
    apply deliverable_entry_total in Hentry as [-> _].
    unfold final_total. destruct new as [|d' new']; [reflexivity|].
    rewrite !last_cons. destruct (last new'); reflexivity.
Qed.

Lemma deliverable_entry_resolve (overhead_costs : list (string * num))
    (c : num) (deliv_data : DeliverableData.t) :
  match resolve_amount deliv_data with
  | Return (_, amount) =>
      exists d,
        deliverable_entry overhead_costs c deliv_data
        = Return (d, Deliverable.cumulative_net_flow d)
        /\ Deliverable.cash_in d = amount
  | Raise e => deliverable_entry overhead_costs c deliv_data = Raise e
  end.
Proof.
  unfold deliverable_entry.
  destruct (resolve_amount deliv_data) as [[service_info amount]|e]; simpl.
  - lazymatch goal with
    | |- exists d, mret (?r, _) = _ /\ _ => exists r
    end.
    split; reflexivity.
  - reflexivity.
Qed.

Lemma emitted_lookup (overhead_costs : list (string * num))
    (request : list DeliverableData.t) :
  forall (c : num) (new : list Deliverable.t),
    emitted overhead_costs c request = Return new ->
    forall (k : nat) (deliv_data : DeliverableData.t),
      request !! k = Some deliv_data ->
      exists d service_info,
        new !! k = Some d
        /\ resolve_amount deliv_data
           = Return (service_info, Deliverable.cash_in d).
Proof.
  induction request as [|dd rest IH]; intros c new Hnew k deliv_data Hk.
  - destruct k; discriminate.
  - simpl in Hnew.
    pose proof (deliverable_entry_resolve overhead_costs c dd) as Hres.
    destruct (resolve_amount dd) as [[service_info amount]|e] eqn:Hdd.
    + destruct Hres as (d & Hd & Hcash). rewrite Hd in Hnew. simpl in Hnew.
      destruct (emitted overhead_costs _ rest) as [ds|e] eqn:Hrest;
        simpl in Hnew; [|discriminate].
      injection Hnew as <-.
      destruct k as [|k]; simpl in Hk.
      * injection Hk as <-. exists d, service_info. rewrite Hdd, Hcash.
        split; reflexivity.
      * destruct (IH _ _ Hrest k deliv_data Hk) as (d' & si & Hl & Hr).
        exists d', si. split; assumption.
    + rewrite Hres in Hnew. discriminate.
Qed.

Lemma emitted_cumulative (overhead_costs : list (string * num))
    (request : list DeliverableData.t) :
  forall (c : num) (new : list Deliverable.t),
    emitted overhead_costs c request = Return new ->
    forall (k : nat) (d : Deliverable.t),
      new !! k = Some d ->
      Deliverable.cumulative_net_flow d
      = fold_left py_add (map Deliverable.net_flow (take (S k) new)) c.
Proof.
  induction request as [|dd rest IH]; intros c new Hnew k d Hk; simpl in Hnew.
  - injection Hnew as <-. destruct k; discriminate.
  - destruct (deliverable_entry overhead_costs c dd) as [[d0 c']|e]
      eqn:Hentry; simpl in Hnew; [|discriminate].
    destruct (emitted overhead_costs c' rest) as [ds|e] eqn:Hrest;
      simpl in Hnew; [|discriminate].
    injection Hnew as <-.
    apply deliverable_entry_total in Hentry as [-> Hd0].
    destruct k as [|k]; simpl in Hk.
    + injection Hk as <-. simpl. exact Hd0.
    + rewrite (IH _ _ Hrest k d Hk). simpl. rewrite Hd0. reflexivity.
Qed.

(** The first item that cannot be resolved decides the outcome of the
    loop. *)
Lemma emitted_first_error (overhead_costs : list (string * num))
    (before : list DeliverableData.t) (deliv_data : DeliverableData.t)
    (after : list DeliverableData.t) (e : exn) :
  Forall (fun x => is_raise (resolve_amount x) = false) before ->
  resolve_amount deliv_data = Raise e ->
  forall c, emitted overhead_costs c (before ++ deliv_data :: after) = Raise e.
Proof.
  intros Hbefore Hraise.
  induction Hbefore as [|x before Hx _ IH]; intros c; simpl.
  - pose proof (deliverable_entry_resolve overhead_costs c deliv_data) as H.
    rewrite Hraise in H. rewrite H. reflexivity.
  - pose proof (deliverable_entry_resolve overhead_costs c x) as H.
    destruct (resolve_amount x) as [[si amount]|e'];
      [|discriminate Hx].
    destruct H as (d & -> & _). simpl. rewrite IH. reflexivity.
Qed.

(** Every list splits at its first item that cannot be resolved, if it
    has one. *)
Lemma split_at_first_unresolved (request : list DeliverableData.t)
    (deliv_data : DeliverableData.t) :
  In deliv_data request ->
  is_raise (resolve_amount deliv_data) = true ->
  exists before x after e,
    request = before ++ x :: after
    /\ Forall (fun y => is_raise (resolve_amount y) = false) before
    /\ resolve_amount x = Raise e.
Proof.
  induction request as [|y rest IH]; intros Hin Hraise; [destruct Hin|].
  destruct (resolve_amount y) as [a|e] eqn:Hy.
  - destruct Hin as [->|Hin]; [rewrite Hy in Hraise; discriminate|].
    destruct (IH Hin Hraise) as (before & x & after & e & -> & Hb & Hx).
    exists (y :: before), x, after, e. split; [reflexivity|].
    split; [|exact Hx]. constructor; [rewrite Hy; reflexivity|exact Hb].
  - exists [], y, rest, e. split; [reflexivity|]. split; [constructor|exact Hy].
Qed.

(** The summary never raises: the division is only reached with a
    divisor greater than zero. *)
Lemma py_gt_zero_nonzero (a : num) :
  py_gt a (PyInt 0) = true -> py_is_zero a = false.
Proof.
  destruct a as [z|x]; simpl.
  - intros H. apply Z.ltb_lt in H. apply Z.eqb_neq. lia.
  - destruct x as [s| | |]; try reflexivity. destruct s; discriminate.
Qed.

Lemma cashflow_summary_returns (deliverables : list Deliverable.t) :
  let total_revenue := py_sum (map Deliverable.cash_in deliverables) in
  let total_costs := py_sum (map Deliverable.cash_out deliverables) in
  let total_profit := py_sub total_revenue total_costs in
  cashflow_summary deliverables =
  Return
    {| Summary.total_revenue := total_revenue;
       Summary.total_costs := total_costs;
       Summary.total_profit := total_profit;
       Summary.profit_margin :=
         if py_gt total_revenue (PyInt 0)
         then py_round2
                (py_mul (PyFloat (F.div (to_float total_profit)
                                        (to_float total_revenue)))
                        (PyInt 100))
         else PyInt 0;
       Summary.is_profitable := py_gt total_profit (PyInt 0) |}.
Proof.
  intros total_revenue total_costs total_profit. unfold cashflow_summary.
  fold total_revenue total_costs total_profit.
  destruct (py_gt total_revenue (PyInt 0)) eqn:Hgt; [|reflexivity].
  unfold py_truediv. rewrite (py_gt_zero_nonzero _ Hgt). reflexivity.
Qed.

Lemma cashflow_outcome (overhead_costs : list (string * num))
    (request : list DeliverableData.t) :
  calculate_deliverable_cashflow overhead_costs request =
  match emitted overhead_costs (PyInt 0) request with
  | Return deliverables =>
      match cashflow_summary deliverables with
      | Return summary =>
          Return {| CashFlow.deliverables := deliverables;
                    CashFlow.summary := summary |}
      | Raise e => Raise (cashflow_failure e)
      end
  | Raise e => Raise (cashflow_failure e)
  end.
Proof.
  unfold calculate_deliverable_cashflow.
  rewrite cashflow_loop_emitted.
  destruct (emitted overhead_costs (PyInt 0) request) as [ds|e]; simpl;
    [|reflexivity].
  destruct (cashflow_summary ds); reflexivity.
Qed.

(** ** Signs of sums

    Adding doubles that are neither negative nor NaN gives a double that
    is neither negative nor NaN: rounding keeps the sign bit, and the
    shifted significand of a positive number never becomes negative. *)















(** ** Catalog facts *)

Lemma dict_get_forallb {V : Type} (P : V -> bool)
    (d : list (string * V)) (key : string) (v : V) :
  forallb P (dict_values d) = true -> dict_get d key = Some v -> P v = true.
Proof.
  induction d as [|[k w] rest IH]; simpl; [discriminate|].
  intros Hall. apply andb_prop in Hall as [Hw Hrest].
  destruct (String.eqb k key).
  - intros H. injection H as <-. exact Hw.
  - apply IH, Hrest.
Qed.




(** ** Deliverable cash-flow engine *)

(** C2: whenever the cash-flow call returns, the cumulative_net_flow of
    every emitted entry is the sum, from the int 0 and in input order, of
    the net_flow values up to and including that entry; in particular the
    last entry carries the sum of all net_flow values.  The total starts
    from 0 in every call: it is no argument of the endpoint. *)
Theorem cumulative_net_flow_running_sum
    (overhead_costs : list (string * num))
    (request : list DeliverableData.t) (r : CashFlow.t) :
  calculate_deliverable_cashflow overhead_costs request = Return r ->
  (forall (k : nat) (d : Deliverable.t),
      CashFlow.deliverables r !! k = Some d ->
      Deliverable.cumulative_net_flow d
      = py_sum (map Deliverable.net_flow
                    (take (S k) (CashFlow.deliverables r))))
  /\ (forall d : Deliverable.t,
        last (CashFlow.deliverables r) = Some d ->
        Deliverable.cumulative_net_flow d
        = py_sum (map Deliverable.net_flow (CashFlow.deliverables r))).
Proof.
  rewrite cashflow_outcome.
  destruct (emitted overhead_costs (PyInt 0) request) as [ds|e] eqn:Hds;
    [|discriminate].
  destruct (cashflow_summary ds) as [s|e]; [|discriminate].
  intros H. injection H as <-. simpl.
  assert (Hrun : forall k d, ds !! k = Some d ->
            Deliverable.cumulative_net_flow d
            = py_sum (map Deliverable.net_flow (take (S k) ds)))
    by (intros k d Hk; apply (emitted_cumulative _ _ _ _ Hds k d Hk)).
  split; [exact Hrun|].
  intros d Hlast. rewrite last_lookup in Hlast.
  rewrite (Hrun _ _ Hlast). f_equal. f_equal.
  apply take_ge.
  destruct ds; simpl; [discriminate|lia].
Qed.

Lemma cumulative_net_flow_running_sum_witness :
  exists r,
    calculate_deliverable_cashflow DEFAULT_OVERHEAD_COSTS
      [example_D1 "2025-03-31"; example_D2; example_D3] = Return r
    /\ (forall (k : nat) (d : Deliverable.t),
          CashFlow.deliverables r !! k = Some d ->
          Deliverable.cumulative_net_flow d
          = py_sum (map Deliverable.net_flow
                        (take (S k) (CashFlow.deliverables r))))
    /\ (forall d : Deliverable.t,
          last (CashFlow.deliverables r) = Some d ->
          Deliverable.cumulative_net_flow d
          = py_sum (map Deliverable.net_flow (CashFlow.deliverables r))).
Proof.
  eexists. split; [vm_compute; reflexivity|].
  apply (cumulative_net_flow_running_sum DEFAULT_OVERHEAD_COSTS
           [example_D1 "2025-03-31"; example_D2; example_D3]).
  vm_compute. reflexivity.
Defined.



(** C5: whenever the cash-flow call returns, an item whose service_id
    resolves in the catalog is charged its explicit amount when it gives
    one, whatever the catalog price, and the catalog price when it gives
    none. *)
Theorem explicit_amount_overrides_catalog
    (overhead_costs : list (string * num))
    (request : list DeliverableData.t) (r : CashFlow.t)
    (k : nat) (deliv_data : DeliverableData.t)
    (service_id : string) (service : Service.t) :
  calculate_deliverable_cashflow overhead_costs request = Return r ->
  request !! k = Some deliv_data ->
  DeliverableData.service_id deliv_data = Some service_id ->
  dict_get SERVICES_CATALOG service_id = Some service ->
  exists d,
    CashFlow.deliverables r !! k = Some d
    /\ Deliverable.cash_in d
       = match DeliverableData.amount deliv_data with
         | Some amount => PyFloat amount
         | None => PyFloat (Service.price service)
         end.
Proof.
  rewrite cashflow_outcome.
  destruct (emitted overhead_costs (PyInt 0) request) as [ds|e] eqn:Hds;
    [|discriminate].
  destruct (cashflow_summary ds) as [s|e]; [|discriminate].
  intros H Hk Hsid Hget. injection H as <-.
  destruct (emitted_lookup _ _ _ _ Hds k deliv_data Hk)
    as (d & service_info & Hd & Hresolve).
  exists d. split; [exact Hd|].
  unfold resolve_amount in Hresolve. rewrite Hsid in Hresolve.
  destruct service_id as [|c rest]; [discriminate Hget|].
  cbn [Str.truthy] in Hresolve. rewrite Hget in Hresolve.
  destruct (DeliverableData.amount deliv_data);
    injection Hresolve as _ <-; reflexivity.
Qed.

Lemma explicit_amount_overrides_catalog_witness :
  exists r d,
    calculate_deliverable_cashflow DEFAULT_OVERHEAD_COSTS
      [example_D1 "2025-03-31"; example_D3] = Return r
    /\ (Service.price <$> dict_get SERVICES_CATALOG "1.2")
       = Some (F.of_Z 30000)
    /\ CashFlow.deliverables r !! 1%nat = Some d
    /\ Deliverable.cash_in d = PyFloat (F.of_Z 25000).
Proof.
  eexists.
  destruct (explicit_amount_overrides_catalog DEFAULT_OVERHEAD_COSTS
              [example_D1 "2025-03-31"; example_D3] _ 1%nat example_D3
              "1.2"
              {| Service.name := "AI Trustworthiness & Risk Assessment";
                 Service.description :=
                   "Incorporates AI risk management models to ensure ethical, bias-mitigated, and secure AI deployment";
                 Service.unit := "Service";
                 Service.duration := 2;
                 Service.price := F.of_Z 30000 |}
              ltac:(vm_compute; reflexivity) eq_refl eq_refl eq_refl)
    as (d & Hd & Hcash).
  exists d. split; [reflexivity|]. split; [reflexivity|].
  split; [exact Hd|exact Hcash].
Defined.

Lemma resolve_amount_errors (deliv_data : DeliverableData.t) (e : exn) :
  resolve_amount deliv_data = Raise e ->
  e = missing_amount_error
  \/ exists service_id, e = unknown_service_error service_id.
Proof.
  unfold resolve_amount.
  destruct (DeliverableData.service_id deliv_data) as [sid|];
    [destruct (Str.truthy sid);
     [destruct (dict_get SERVICES_CATALOG sid)|]|];
    destruct (DeliverableData.amount deliv_data);
    intros H; try discriminate; injection H as <-; eauto.
Qed.

Lemma resolve_amount_missing (deliv_data : DeliverableData.t) :
  no_service deliv_data = true ->
  DeliverableData.amount deliv_data = None ->
  resolve_amount deliv_data = Raise missing_amount_error.
Proof.
  unfold no_service, resolve_amount. intros Hno ->.
  destruct (DeliverableData.service_id deliv_data) as [sid|];
    [|reflexivity].
  destruct (Str.truthy sid); [discriminate|reflexivity].
Qed.

Lemma cashflow_first_error (overhead_costs : list (string * num))
    (before : list DeliverableData.t) (x : DeliverableData.t)
    (after : list DeliverableData.t) (e : exn) :
  Forall (fun y => is_raise (resolve_amount y) = false) before ->
  resolve_amount x = Raise e ->
  calculate_deliverable_cashflow overhead_costs (before ++ x :: after)
  = Raise (cashflow_failure e).
Proof.
  intros Hbefore Hx. rewrite cashflow_outcome.
  rewrite (emitted_first_error _ _ _ _ _ Hbefore Hx). reflexivity.
Qed.

(** C6, as the code has it: a request containing an item with neither a
    service nor an amount always fails, and nothing is returned: the call
    raises the error of the first item, in input order, that cannot be
    resolved.  That is the missing-amount error when every earlier item
    resolves, and otherwise the unknown-service error of an earlier item.
    Any item that cannot be resolved aborts the whole call in this way. *)
Theorem first_unresolved_item_aborts
    (overhead_costs : list (string * num))
    (request : list DeliverableData.t) (deliv_data : DeliverableData.t) :
  In deliv_data request ->
  no_service deliv_data = true ->
  DeliverableData.amount deliv_data = None ->
  (exists e x,
      calculate_deliverable_cashflow overhead_costs request
      = Raise (cashflow_failure e)
      /\ In x request
      /\ resolve_amount x = Raise e
      /\ (e = missing_amount_error
          \/ exists service_id, e = unknown_service_error service_id))
  /\ (forall before after,
        request = before ++ deliv_data :: after ->
        Forall (fun y => is_raise (resolve_amount y) = false) before ->
        calculate_deliverable_cashflow overhead_costs request
        = Raise (cashflow_failure missing_amount_error))
  /\ (forall before x after e,
        request = before ++ x :: after ->
        Forall (fun y => is_raise (resolve_amount y) = false) before ->
        resolve_amount x = Raise e ->
        calculate_deliverable_cashflow overhead_costs request
        = Raise (cashflow_failure e)).
Proof.
  intros Hin Hno Hamount.
  pose proof (resolve_amount_missing _ Hno Hamount) as Hmissing.
  split; [|split].
  - assert (Hraise : is_raise (resolve_amount deliv_data) = true)
      by (rewrite Hmissing; reflexivity).
    destruct (split_at_first_unresolved _ _ Hin Hraise)
      as (before & x & after & e & -> & Hbefore & Hx).
    exists e, x. split; [apply cashflow_first_error; assumption|].
    split; [apply in_or_app; right; left; reflexivity|].
    split; [exact Hx|]. apply (resolve_amount_errors _ _ Hx).
  - intros before after -> Hbefore.
    apply cashflow_first_error; assumption.
  - intros before x after e -> Hbefore Hx.
    apply cashflow_first_error; assumption.
Qed.

Lemma first_unresolved_item_aborts_witness :
  calculate_deliverable_cashflow DEFAULT_OVERHEAD_COSTS
    [example_D2; example_no_amount; example_D3]
  = Raise (cashflow_failure missing_amount_error).
Proof.
  refine (proj1 (proj2
            (first_unresolved_item_aborts DEFAULT_OVERHEAD_COSTS
               [example_D2; example_no_amount; example_D3]
               example_no_amount _ _ _))
            [example_D2] [example_D3] eq_refl _).
  - right. left. reflexivity.
  - reflexivity.
  - reflexivity.
  - constructor; [vm_compute; reflexivity|constructor].
Defined.

(** C6 as stated fails: an item with neither a service nor an amount
    that comes after an item naming an unknown service makes the call
    fail with the unknown-service error, not the missing-amount error. *)
Lemma missing_amount_after_unknown_service :
  In example_no_amount [example_unknown_service; example_no_amount]
  /\ no_service example_no_amount = true
  /\ DeliverableData.amount example_no_amount = None
  /\ calculate_deliverable_cashflow DEFAULT_OVERHEAD_COSTS
       [example_unknown_service; example_no_amount]
     = Raise (cashflow_failure (unknown_service_error "9.9"))
  /\ calculate_deliverable_cashflow DEFAULT_OVERHEAD_COSTS
       [example_unknown_service; example_no_amount]
     <> Raise (cashflow_failure missing_amount_error).
Proof.
  split; [right; left; reflexivity|].
  split; [reflexivity|]. split; [reflexivity|].
  assert (H : calculate_deliverable_cashflow DEFAULT_OVERHEAD_COSTS
                [example_unknown_service; example_no_amount]
              = Raise (cashflow_failure (unknown_service_error "9.9")))
    by (vm_compute; reflexivity).
  split; [exact H|]. rewrite H. discriminate.
Qed.

(** ** The worked example *)

(** C7: for the deliverable D1 (service 1.2, salaries 1000, tools 200,
    others 50) the catalog gives price 30000 and duration 2, the start-up
    overhead rates sum to 108000, and the engine emits one entry with
    overhead 216187.5, cash_out 217437.5, net_flow -187437.5 and
    is_profitable false. *)
Theorem example_D1_cashflow (due_date : string) :
  (Service.price <$> dict_get SERVICES_CATALOG "1.2") = Some (F.of_Z 30000)
  /\ (Service.duration <$> dict_get SERVICES_CATALOG "1.2") = Some 2
  /\ py_sum (dict_values DEFAULT_OVERHEAD_COSTS) = PyInt 108000
  /\ exists d summary,
       calculate_deliverable_cashflow DEFAULT_OVERHEAD_COSTS
         [example_D1 due_date]
       = Return {| CashFlow.deliverables := [d];
                   CashFlow.summary := summary |}
       /\ Deliverable.cash_in d = PyFloat (F.of_Z 30000)
       /\ Deliverable.overhead d = PyFloat (F.decimal 2161875 1)
       /\ Deliverable.cash_out d = PyFloat (F.decimal 2174375 1)
       /\ Deliverable.net_flow d = PyFloat (F.decimal (-1874375) 1)
       /\ Deliverable.is_profitable d = false.
Proof.
  split; [reflexivity|]. split; [reflexivity|]. split; [reflexivity|].
  eexists _, _. split.
  - vm_compute. reflexivity.
  - repeat split; vm_compute; reflexivity.
Qed.

(** The decimals of the example are exact doubles: 1250 * 0.15 rounds to
    187.5, and the figures above are 2161875/10, 2174375/10 and
    -1874375/10. *)
Lemma example_D1_exact :
  F.exactly (F.mul (F.of_Z 1250) (F.decimal 15 2)) 1875 10 = true
  /\ F.exactly (F.decimal 2161875 1) 2161875 10 = true
  /\ F.exactly (F.decimal 2174375 1) 2174375 10 = true
  /\ F.exactly (F.decimal (-1874375) 1) (-1874375) 10 = true.
Proof. repeat split; vm_compute; reflexivity. Qed.

(** ** Proposal assembler *)

Lemma payment_amounts_annotate (total_amount : num)
    (terms : list PaymentTerm.t) :
  forall acc,
    payment_amounts total_amount terms acc
    = Return (acc ++ map (annotate total_amount) terms).
Proof.
  induction terms as [|term rest IH]; intros acc.
  - cbn [payment_amounts map]. rewrite app_nil_r. reflexivity.
  - cbn [payment_amounts map]. unfold py_truediv.
    change (py_is_zero (PyInt 100)) with false.
    cbn [mbind result_bind]. rewrite IH, <- app_assoc. reflexivity.
Qed.

Lemma create_financial_proposal_outcome (env : Env.t)
    (proposals_storage : storage) (request : FinalProposalRequest.t) :
  let total :=
    total_percentage (FinalProposalRequest.payment_terms request) in
  let proposal := assembled env request in
  create_financial_proposal env proposals_storage request =
  if percentage_mismatch total
  then Raise (proposal_failure (payment_term_mismatch_error total))
  else
    Return
      (<[Proposal.offer_number proposal :=
           <["created_at" :=
               StoredText (DateTime.isoformat (Env.now env 3))]>
             (<["proposal" := StoredProposal proposal]> ∅)]>
         proposals_storage,
       {| ProposalResponse.success := true;
          ProposalResponse.quotation_code := Proposal.offer_number proposal;
          ProposalResponse.proposal := proposal |}).
Proof.
  intros total proposal. unfold create_financial_proposal.
  fold total. destruct (percentage_mismatch total); [reflexivity|].
  rewrite payment_amounts_annotate. reflexivity.
Qed.












(** C8 as stated fails: one line item of 99999 with terms of 30% and 70%
    is accepted (the percentages sum to exactly 100), and the two
    annotated amounts sum to a double below 99999. *)
Lemma amounts_need_not_sum_to_total :
  total_percentage (FinalProposalRequest.payment_terms example_uneven)
  = PyFloat (F.of_Z 100)
  /\ exists proposals_storage' response total,
       create_financial_proposal example_env ∅ example_uneven
       = Return (proposals_storage', response)
       /\ Proposal.total_amount (ProposalResponse.proposal response)
          = PyFloat (F.of_Z 99999)
       /\ py_sum (map TermAmount.amount
                      (Proposal.payment_terms
                         (ProposalResponse.proposal response)))
          = PyFloat total
       /\ F.ltb total (F.of_Z 99999) = true
       /\ py_sum (map TermAmount.amount
                      (Proposal.payment_terms
                         (ProposalResponse.proposal response)))
          <> Proposal.total_amount (ProposalResponse.proposal response).
Proof.
  split; [vm_compute; reflexivity|].
  pose proof (create_financial_proposal_outcome example_env ∅
                example_uneven) as Hout.
  cbv zeta in Hout.
  replace (percentage_mismatch _) with false in Hout
    by (vm_compute; reflexivity).
  eexists _, _, _. split; [exact Hout|].
  cbn [ProposalResponse.proposal].
  assert (Hsum : py_sum (map TermAmount.amount
                   (Proposal.payment_terms
                      (assembled example_env example_uneven)))
                 = PyFloat (S754_finite false 6871878954123263 (-36)))
    by (vm_compute; reflexivity).
  assert (Htotal : Proposal.total_amount
                     (assembled example_env example_uneven)
                   = PyFloat (F.of_Z 99999))
    by (vm_compute; reflexivity).
  split; [exact Htotal|]. split; [exact Hsum|].
  split; [vm_compute; reflexivity|].
  rewrite Hsum, Htotal. vm_compute. discriminate.
Qed.

(** C8, as the code has it: for every accepted request the total_amount
    is the sum of the line items' total_price values and the payment
    terms are annotated in input order with
    [amount = total_amount * (percentage / 100)], computed in doubles (so
    the amounts need not add up to total_amount exactly).  For items
    totalling 500000 and terms of 40% and 60% the amounts are 200000 and
    300000, and they sum to total_amount. *)
Theorem proposal_amounts (env : Env.t) (proposals_storage : storage)
    (request : FinalProposalRequest.t)
    (proposals_storage' : storage) (response : ProposalResponse.t) :
  create_financial_proposal env proposals_storage request
  = Return (proposals_storage', response) ->
  let proposal := ProposalResponse.proposal response in
  let terms := FinalProposalRequest.payment_terms request in
  Proposal.total_amount proposal
  = items_total (FinalProposalRequest.proposal_items request)
  /\ Proposal.payment_terms proposal
     = map (annotate (Proposal.total_amount proposal)) terms
  /\ (forall (k : nat) (term : PaymentTerm.t),
        terms !! k = Some term ->
        Proposal.payment_terms proposal !! k
        = Some (annotate (Proposal.total_amount proposal) term))
  /\ (Proposal.total_amount proposal = PyFloat (F.of_Z 500000) ->
      map PaymentTerm.percentage terms = [F.of_Z 40; F.of_Z 60] ->
      map TermAmount.amount (Proposal.payment_terms proposal)
      = [PyFloat (F.of_Z 200000); PyFloat (F.of_Z 300000)]
      /\ py_sum (map TermAmount.amount (Proposal.payment_terms proposal))
         = Proposal.total_amount proposal).
Proof.
  rewrite create_financial_proposal_outcome.
  destruct (percentage_mismatch _); [discriminate|].
  intros H. injection H as _ <-.
  cbn [ProposalResponse.proposal]. cbv zeta.
  set (terms := FinalProposalRequest.payment_terms request).
  assert (Hterms : Proposal.payment_terms (assembled env request)
                   = map (annotate
                            (Proposal.total_amount (assembled env request)))
                         terms) by reflexivity.
  split; [reflexivity|]. split; [exact Hterms|]. split.
  - intros k term Hk. rewrite Hterms, list_lookup_fmap, Hk. reflexivity.
  - intros Htotal Hpercent. rewrite Hterms, Htotal.
    destruct terms as [|t1 [|t2 [|t3 rest]]]; try discriminate Hpercent.
    injection Hpercent as H1 H2.
    cbn [map annotate TermAmount.amount]. rewrite H1, H2.
    split; vm_compute; reflexivity.
Qed.

Lemma proposal_amounts_witness :
  exists proposals_storage' response,
    create_financial_proposal example_env ∅ example_proposal
    = Return (proposals_storage', response)
    /\ Proposal.total_amount (ProposalResponse.proposal response)
       = PyFloat (F.of_Z 500000)
    /\ map TermAmount.amount
           (Proposal.payment_terms (ProposalResponse.proposal response))
       = [PyFloat (F.of_Z 200000); PyFloat (F.of_Z 300000)]
    /\ py_sum (map TermAmount.amount
                 (Proposal.payment_terms (ProposalResponse.proposal response)))
       = Proposal.total_amount (ProposalResponse.proposal response).
Proof.
  pose proof (create_financial_proposal_outcome example_env ∅
                example_proposal) as Hcreate.
  cbv zeta in Hcreate.
  replace (percentage_mismatch _) with false in Hcreate
    by (vm_compute; reflexivity).
  eexists _, _. split; [exact Hcreate|].
  assert (Htotal : Proposal.total_amount
                     (assembled example_env example_proposal)
                   = PyFloat (F.of_Z 500000))
    by (vm_compute; reflexivity).
  split; [exact Htotal|].
  exact (proj2 (proj2 (proj2
           (proposal_amounts example_env ∅ example_proposal _ _ Hcreate)))
           Htotal eq_refl).
Defined.

(** ** Price justification *)

(** C9: for every service id and price, and whatever the provider does,
    the justification function returns a string and the endpoint returns
    its response.  The string is the provider's text, stripped, when the
    provider hands back a non-empty text; it is one of four fixed
    strings when the service is not in the catalog, the API key is not
    configured, the provider raises, or its response is empty. *)
Theorem price_justification_never_fails (provider : Provider.t)
    (service_id : string) (proposed_price : F.t) :
  (exists justification,
      generate_price_justification provider service_id proposed_price
      = Return justification
      /\ generate_price_justification_endpoint provider service_id
           proposed_price
         = Return
             {| JustificationResponse.service_id := service_id;
                JustificationResponse.proposed_price := proposed_price;
                JustificationResponse.justification := justification |})
  /\ (dict_get SERVICES_CATALOG service_id = None ->
      generate_price_justification provider service_id proposed_price
      = Return SERVICE_NOT_FOUND)
  /\ (forall service,
        dict_get SERVICES_CATALOG service_id = Some service ->
        let outcome :=
          Provider.generate_content provider
            (justification_prompt service proposed_price) in
        (key_configured (Provider.GEMINI_API_KEY provider) = false ->
         generate_price_justification provider service_id proposed_price
         = Return KEY_NOT_CONFIGURED)
        /\ (key_configured (Provider.GEMINI_API_KEY provider) = true ->
            (forall e,
                outcome = ProviderRaises e ->
                generate_price_justification provider service_id
                  proposed_price
                = Return PROVIDER_FAILED)
            /\ (forall response_text,
                  outcome = ProviderResponse (Some response_text) ->
                  Str.truthy response_text = true ->
                  generate_price_justification provider service_id
                    proposed_price
                  = Return (Str.strip response_text))
            /\ (outcome = ProviderResponse None
                \/ outcome = ProviderResponse (Some "") ->
                generate_price_justification provider service_id
                  proposed_price
                = Return EMPTY_RESPONSE))).
Proof.
  unfold generate_price_justification_endpoint,
    generate_price_justification.
  destruct (dict_get SERVICES_CATALOG service_id) as [service|].
  - split; [|split; [discriminate|]].
    + destruct (key_configured (Provider.GEMINI_API_KEY provider));
        cbn [negb].
      * destruct (Provider.generate_content provider _)
          as [e|[response_text|]];
          [| destruct (Str.truthy response_text) |];
          eexists; split; reflexivity.
      * eexists; split; reflexivity.
    + intros service' Hs. injection Hs as <-. cbv zeta.
      destruct (key_configured (Provider.GEMINI_API_KEY provider));
        cbn [negb]; (split; intros Hkey);
        try discriminate Hkey; try reflexivity.
      split; [|split].
      * intros e ->. reflexivity.
      * intros response_text -> ->. reflexivity.
      * intros [-> | ->]; reflexivity.
  - split; [eexists; split; reflexivity|].
    split; [reflexivity|]. intros service Hs. discriminate Hs.
Qed.

Lemma price_justification_never_fails_witness :
  generate_price_justification example_provider "1.2" (F.of_Z 28000)
  = Return "The price is fair."
  /\ generate_price_justification example_failing_provider "1.2"
       (F.of_Z 28000)
     = Return PROVIDER_FAILED
  /\ generate_price_justification example_provider "9.9" (F.of_Z 28000)
     = Return SERVICE_NOT_FOUND.
Proof.
  pose proof (price_justification_never_fails example_provider "1.2"
                (F.of_Z 28000)) as (_ & _ & Hgood).
  pose proof (price_justification_never_fails example_failing_provider
                "1.2" (F.of_Z 28000)) as (_ & _ & Hbad).
  pose proof (price_justification_never_fails example_provider "9.9"
                (F.of_Z 28000)) as (_ & Hunknown & _).
  split; [|split].
  - destruct (Hgood _ eq_refl) as [_ Hkey].
    destruct (Hkey eq_refl) as (_ & Htext & _).
    exact (Htext "  The price is fair.  " eq_refl eq_refl).
  - destruct (Hbad _ eq_refl) as [_ Hkey].
    destruct (Hkey eq_refl) as (Hraise & _).
    exact (Hraise _ eq_refl).
  - exact (Hunknown eq_refl).
Defined.

(** ** Proposal store and summary formatter *)

Lemma create_project_metadata_writes (env : Env.t)
    (proposals_storage : storage) (metadata : ProjectMetadata.t)
    (proposals_storage' : storage) (response : MetadataResponse.t) :
  create_project_metadata env proposals_storage metadata
  = Return (proposals_storage', response) ->
  exists created_at,
    proposals_storage'
    = <[MetadataResponse.quotation_code response :=
          <["created_at" := StoredText created_at]>
            (<["metadata" :=
                 StoredMetadata (MetadataResponse.metadata response)]> ∅)]>
        proposals_storage.
Proof.
  unfold create_project_metadata, try_except.
  destruct (Env.strptime env (ProjectMetadata.start_date metadata))
    as [start_date|e]; cbn [mbind result_bind];
    [|destruct (is_value_error e); discriminate].
  destruct (Env.strptime env (ProjectMetadata.end_date metadata))
    as [end_date|e]; cbn [mbind result_bind];
    [|destruct (is_value_error e); discriminate].
  destruct (end_date <=? start_date); [discriminate|].
  destruct (calculate_duration_months env _ _) as [months|e];
    cbn [mbind result_bind mret result_ret];
    [|destruct (is_value_error e); discriminate].
  intros H. injection H as <- <-. eexists. reflexivity.
Qed.

Lemma create_financial_proposal_writes (env : Env.t)
    (proposals_storage : storage) (request : FinalProposalRequest.t)
    (proposals_storage' : storage) (response : ProposalResponse.t) :
  create_financial_proposal env proposals_storage request
  = Return (proposals_storage', response) ->
  exists created_at,
    proposals_storage'
    = <[ProposalResponse.quotation_code response :=
          <["created_at" := StoredText created_at]>
            (<["proposal" :=
                 StoredProposal (ProposalResponse.proposal response)]> ∅)]>
        proposals_storage.
Proof.
  rewrite create_financial_proposal_outcome.
  destruct (percentage_mismatch _); [discriminate|].
  intros H. injection H as <- <-. eexists. reflexivity.
Qed.

Lemma metadata_record_shape (created_at : string) (v : stored) :
  metadata_only (<["created_at" := StoredText created_at]>
                   (<["metadata" := v]> ∅)).
Proof.
  split.
  - exists v. rewrite lookup_insert_ne by discriminate.
    apply lookup_insert_eq.
  - rewrite !lookup_insert_ne by discriminate. apply lookup_empty.
Qed.

Lemma proposal_record_shape (created_at : string) (v : stored) :
  proposal_only (<["created_at" := StoredText created_at]>
                   (<["proposal" := v]> ∅)).
Proof.
  split.
  - exists v. rewrite lookup_insert_ne by discriminate.
    apply lookup_insert_eq.
  - rewrite !lookup_insert_ne by discriminate. apply lookup_empty.
Qed.

Lemma reachable_one_sided (proposals_storage : storage) :
  reachable proposals_storage ->
  forall (code : string) (record : gmap string stored),
    proposals_storage !! code = Some record ->
    metadata_only record \/ proposal_only record.
Proof.
  induction 1 as [|env st metadata st' response _ IH Hcreate
                  |env st request st' response _ IH Hcreate
                  |st deleted st' _ IH Hdelete];
    intros code record Hlookup.
  - rewrite lookup_empty in Hlookup. discriminate.
  - apply create_project_metadata_writes in Hcreate as [created_at ->].
    rewrite lookup_insert in Hlookup.
    destruct (decide (MetadataResponse.quotation_code response = code));
      [|eauto].
    injection Hlookup as <-. left. apply metadata_record_shape.
  - apply create_financial_proposal_writes in Hcreate as [created_at ->].
    rewrite lookup_insert in Hlookup.
    destruct (decide (ProposalResponse.quotation_code response = code));
      [|eauto].
    injection Hlookup as <-. right. apply proposal_record_shape.
  - unfold delete_proposal in Hdelete.
    destruct (st !! deleted); [|discriminate].
    injection Hdelete as <-.
    rewrite lookup_delete in Hlookup.
    destruct (decide (deleted = code)); [discriminate|eauto].
Qed.

Lemma summary_of_one_sided (proposals_storage : storage) (code : string)
    (record : gmap string stored) :
  proposals_storage !! code = Some record ->
  metadata_only record \/ proposal_only record ->
  get_proposal_summary proposals_storage code
  = Return [Txt "Incomplete proposal data"].
Proof.
  intros Hlookup Hshape. unfold get_proposal_summary. rewrite Hlookup.
  destruct Hshape as [[_ Hnone]|[_ Hnone]]; rewrite Hnone.
  - destruct (record !! "metadata"); reflexivity.
  - reflexivity.
Qed.

(** C10: the record the metadata operation writes under its quotation
    code has a 'metadata' entry and no 'proposal' entry, the record the
    proposal operation writes has a 'proposal' entry and no 'metadata'
    entry, and in every store built from the empty one by these two
    operations (and by deletions) the summary of every stored quotation
    code is the fixed text "Incomplete proposal data". *)
Theorem summaries_always_incomplete :
  (forall env proposals_storage metadata proposals_storage' response,
      create_project_metadata env proposals_storage metadata
      = Return (proposals_storage', response) ->
      exists record,
        proposals_storage' !! MetadataResponse.quotation_code response
        = Some record
        /\ metadata_only record)
  /\ (forall env proposals_storage request proposals_storage' response,
        create_financial_proposal env proposals_storage request
        = Return (proposals_storage', response) ->
        exists record,
          proposals_storage' !! ProposalResponse.quotation_code response
          = Some record
          /\ proposal_only record)
  /\ (forall proposals_storage,
        reachable proposals_storage ->
        forall code,
          is_Some (proposals_storage !! code) ->
          get_proposal_summary proposals_storage code
          = Return [Txt "Incomplete proposal data"]).
Proof.
  split; [|split].
  - intros env st metadata st' response Hcreate.
    apply create_project_metadata_writes in Hcreate as [created_at ->].
    eexists. split; [apply lookup_insert_eq|apply metadata_record_shape].
  - intros env st request st' response Hcreate.
    apply create_financial_proposal_writes in Hcreate as [created_at ->].
    eexists. split; [apply lookup_insert_eq|apply proposal_record_shape].
  - intros st Hreach code [record Hlookup].
    apply (summary_of_one_sided _ _ _ Hlookup).
    apply (reachable_one_sided _ Hreach _ _ Hlookup).
Qed.

(** The example environment parses the two dates of the example metadata,
    twelve months apart, so the metadata operation returns. *)
Lemma example_metadata_created :
  exists proposals_storage response,
    create_project_metadata example_env ∅ example_metadata
    = Return (proposals_storage, response).
Proof.
  assert (Hmonths : calculate_duration_months example_env
                      "2025-01-01" "2025-12-31" = Return (PyInt 12))
    by (vm_compute; reflexivity).
  unfold create_project_metadata.
  change (ProjectMetadata.start_date example_metadata) with "2025-01-01".
  change (ProjectMetadata.end_date example_metadata) with "2025-12-31".
  change (Env.strptime example_env "2025-01-01") with (@Return Z 739252).
  change (Env.strptime example_env "2025-12-31") with (@Return Z 739616).
  cbn [mbind result_bind].
  change (739616 <=? 739252) with false. cbv iota.
  rewrite Hmonths. cbn [mbind result_bind mret result_ret try_except].
  eexists _, _. reflexivity.
Qed.

Lemma summaries_always_incomplete_witness :
  exists proposals_storage,
    reachable proposals_storage
    /\ is_Some (proposals_storage !! "MUT-20250115-3F2A9C1E")
    /\ get_proposal_summary proposals_storage "MUT-20250115-3F2A9C1E"
       = Return [Txt "Incomplete proposal data"].
Proof.
  destruct example_metadata_created as (st1 & r1 & H1).
  pose proof (create_financial_proposal_outcome example_env st1
                example_proposal) as H2.
  cbv zeta in H2.
  replace (percentage_mismatch _) with false in H2
    by (vm_compute; reflexivity).
  eexists. split; [|split].
  - eapply reachable_proposal; [|exact H2].
    eapply reachable_metadata; [apply reachable_empty|exact H1].
  - exists (<["created_at" :=
               StoredText (DateTime.isoformat (Env.now example_env 3))]>
              (<["proposal" :=
                   StoredProposal (assembled example_env example_proposal)]>
                 ∅)).
    apply lookup_insert_eq.
  - apply (proj2 (proj2 summaries_always_incomplete)).
    + eapply reachable_proposal; [|exact H2].
      eapply reachable_metadata; [apply reachable_empty|exact H1].
    + eexists. apply lookup_insert_eq.
Defined.

(** * Further properties of the code *)

(** ** Readiness assessment *)

Lemma sum_of_answers (answers : list bool) :
  forall so_far : Z,
    fold_left py_add (map py_bool answers) (PyInt so_far)
    = PyInt (so_far + Z.of_nat (answers_equal true answers)).
Proof.
  induction answers as [|b rest IH]; intros so_far.
  - cbn. f_equal. lia.
  - cbn [map fold_left py_bool py_add]. rewrite IH. f_equal.
    unfold answers_equal. destruct b; cbn [count_occ Z.b2z];
      destruct (Bool.bool_dec _ _); try congruence; lia.
Qed.

Lemma answers_split (answers : list bool) :
  (answers_equal true answers + answers_equal false answers)%nat
  = length answers.
Proof.
  unfold answers_equal.
  induction answers as [|b rest IH]; [reflexivity|].
  destruct b; cbn [count_occ length];
    repeat destruct (Bool.bool_dec _ _); try congruence; lia.
Qed.

(** X1: the readiness endpoint rejects any number of answers other than
    seven with a 400 error.  For seven answers it returns, the score is
    the number of answers that are true, the caller may proceed exactly
    when at most one answer is false, the status is Ready exactly when
    no answer is false, and the assessment is stored under the session
    id with the answers as given. *)
Theorem readiness_assessment (uuid4 : string)
    (current_session : gmap string Readiness.t) (answers : list bool) :
  (length answers <> 7%nat ->
   assess_readiness uuid4 current_session answers
   = Raise (HTTPException 400 [Txt "Must provide exactly 7 answers"]))
  /\ (length answers = 7%nat ->
      exists current_session' response,
        assess_readiness uuid4 current_session answers
        = Return (current_session', response)
        /\ ReadinessResponse.score response
           = PyInt (Z.of_nat (answers_equal true answers))
        /\ (ReadinessResponse.can_proceed response = true
            <-> (answers_equal false answers <= 1)%nat)
        /\ (ReadinessResponse.status response = "✅ Ready"
            <-> answers_equal false answers = 0%nat)
        /\ (ReadinessResponse.status response = "❌ Not Ready"
            <-> (2 <= answers_equal false answers)%nat)
        /\ ReadinessResponse.questions response = READINESS_QUESTIONS
        /\ current_session' !! uuid4
           = Some {| Readiness.score := ReadinessResponse.score response;
                     Readiness.status := ReadinessResponse.status response;
                     Readiness.can_proceed :=
                       ReadinessResponse.can_proceed response;
                     Readiness.answers := answers |}).
Proof.
  unfold assess_readiness. split.
  - intros Hlen. apply Nat.eqb_neq in Hlen. rewrite Hlen. reflexivity.
  - intros Hlen. rewrite Hlen. cbn [Nat.eqb negb].
    unfold py_sum. rewrite sum_of_answers, Z.add_0_l.
    pose proof (answers_split answers) as Hsplit. rewrite Hlen in Hsplit.
    set (yes := answers_equal true answers) in *.
    set (no := answers_equal false answers) in *.
    cbn [py_ge].
    destruct (7 <=? Z.of_nat yes) eqn:H7;
      [|destruct (6 <=? Z.of_nat yes) eqn:H6];
      (eexists _, _; split; [reflexivity|]);
      cbn [ReadinessResponse.score ReadinessResponse.can_proceed
           ReadinessResponse.status ReadinessResponse.questions];
      (split; [reflexivity|]);
      try apply Z.leb_le in H7; try apply Z.leb_gt in H7;
      try apply Z.leb_le in H6; try apply Z.leb_gt in H6;
      (split; [split; [intros; lia|try reflexivity; try discriminate;
                                    intros; lia]|]);
      (split; [split; [try discriminate; intros; lia
                      |try reflexivity; intros; lia]|]);
      (split; [split; [try discriminate; intros; lia
                      |try reflexivity; intros; lia]|]);
      (split; [reflexivity|apply lookup_insert_eq]).
Qed.

Lemma readiness_assessment_witness :
  exists current_session' response,
    assess_readiness "3f2a9c1e-5b7d-4e1a-9c3b-8f6d2a1b0c4e" ∅
      [true; true; true; false; true; true; true]
    = Return (current_session', response)
    /\ ReadinessResponse.score response = PyInt 6
    /\ ReadinessResponse.can_proceed response = true.
Proof.
  destruct (proj2 (readiness_assessment
                     "3f2a9c1e-5b7d-4e1a-9c3b-8f6d2a1b0c4e" ∅
                     [true; true; true; false; true; true; true]) eq_refl)
    as (session & response & Hcall & Hscore & Hproceed & _).
  exists session, response. split; [exact Hcall|].
  split; [exact Hscore|]. apply Hproceed. cbn. lia.
Defined.

(** ** Quotation codes *)

Lemma string_length_append (a b : string) :
  String.length (a +:+ b) = (String.length a + String.length b)%nat.
Proof. induction a as [|c a IH]; simpl; [reflexivity|rewrite IH; reflexivity]. Qed.

Lemma string_append_inj (a a' b b' : string) :
  String.length a = String.length a' ->
  a +:+ b = a' +:+ b' -> a = a' /\ b = b'.
Proof.
  revert a'. induction a as [|c a IH]; intros [|c' a'] Hlen Heq;
    try discriminate Hlen.
  - split; [reflexivity|exact Heq].
  - simpl in Hlen, Heq. injection Hlen as Hlen. injection Heq as -> Heq.
    destruct (IH _ Hlen Heq) as [-> ->]. split; reflexivity.
Qed.

Lemma upper_length (s : string) :
  String.length (Str.upper s) = String.length s.
Proof. induction s as [|c s IH]; simpl; [reflexivity|rewrite IH; reflexivity]. Qed.

Lemma upper_char_idempotent (c : ascii) :
  Str.upper_char (Str.upper_char c) = Str.upper_char c.
Proof. destruct c as [[] [] [] [] [] [] [] []]; reflexivity. Qed.

Lemma upper_idempotent (s : string) : Str.upper (Str.upper s) = Str.upper s.
Proof.
  induction s as [|c s IH]; simpl; [reflexivity|].
  rewrite upper_char_idempotent, IH. reflexivity.
Qed.

Lemma prefix_length (n : nat) (s : string) :
  (n <= String.length s)%nat -> String.length (Str.prefix n s) = n.
Proof.
  unfold Str.prefix. revert s.
  induction n as [|n IH]; intros s Hn.
  - destruct s; reflexivity.
  - destruct s as [|c s]; simpl in *; [lia|].
    rewrite IH; [reflexivity|lia].
Qed.

(** X2: a quotation code is "MUT-", the date, "-" and the first eight
    characters of the UUID in upper case: 21 characters when the date has
    eight and the UUID at least eight.  Two codes are equal exactly when
    their dates and their upper-cased UUID prefixes are equal, so the
    remaining characters of the UUID never tell two codes apart. *)
Theorem quotation_code_format (now now' : DateTime.t)
    (uuid4 uuid4' : string) :
  String.length (DateTime.compact now) = 8%nat ->
  String.length (DateTime.compact now') = 8%nat ->
  (8 <= String.length uuid4)%nat ->
  (exists suffix,
      generate_quotation_code now uuid4
      = "MUT-" +:+ DateTime.compact now +:+ "-" +:+ suffix
      /\ String.length suffix = 8%nat
      /\ Str.upper suffix = suffix)
  /\ String.length (generate_quotation_code now uuid4) = 21%nat
  /\ (generate_quotation_code now uuid4
      = generate_quotation_code now' uuid4'
      <-> DateTime.compact now = DateTime.compact now'
          /\ Str.upper (Str.prefix 8 uuid4)
             = Str.upper (Str.prefix 8 uuid4')).
Proof.
  intros Hnow Hnow' Huuid. unfold generate_quotation_code.
  split; [|split].
  - exists (Str.upper (Str.prefix 8 uuid4)). split; [reflexivity|].
    split; [|apply upper_idempotent].
    rewrite upper_length. apply prefix_length, Huuid.
  - rewrite !string_length_append, upper_length, Hnow,
      (prefix_length 8 uuid4 Huuid). reflexivity.
  - split.
    + intros Heq.
      apply (string_append_inj "MUT-" "MUT-") in Heq as [_ Heq];
        [|reflexivity].
      apply string_append_inj in Heq as [Hdate Heq];
        [|rewrite Hnow, Hnow'; reflexivity].
      apply (string_append_inj "-" "-") in Heq as [_ Heq];
        [|reflexivity].
      split; assumption.
    + intros [-> ->]. reflexivity.
Qed.

Lemma quotation_code_format_witness :
  generate_quotation_code example_now
    "3f2a9c1e-5b7d-4e1a-9c3b-8f6d2a1b0c4e"
  = generate_quotation_code example_now
      "3f2a9c1e-0000-4000-8000-000000000000"
  /\ String.length
       (generate_quotation_code example_now
          "3f2a9c1e-5b7d-4e1a-9c3b-8f6d2a1b0c4e") = 21%nat.
Proof.
  pose proof (quotation_code_format example_now example_now
                "3f2a9c1e-5b7d-4e1a-9c3b-8f6d2a1b0c4e"
                "3f2a9c1e-0000-4000-8000-000000000000"
                eq_refl eq_refl ltac:(cbn; lia)) as (_ & Hlen & Hsame).
  split; [|exact Hlen]. apply Hsame. split; reflexivity.
Defined.

(** ** Project duration *)

Lemma month_counts_right_spec (divisor : F.t) (n : nat) :
  forall first,
    month_counts_right divisor n first = true ->
    forall days,
      first <= days < first + Z.of_nat n ->
      month_count_right divisor days = true.
Proof.
  induction n as [|n IH]; intros first Hall days Hrange; [lia|].
  simpl in Hall.
  destruct (month_count_right divisor first) eqn:Hfirst; [|discriminate].
  destruct (Z.eq_dec days first) as [->|Hne]; [exact Hfirst|].
  apply (IH _ Hall). lia.
Qed.

Lemma month_counts_right_twenty_years :
  month_counts_right (F.decimal 3044 2) (Z.to_nat 7306) 0 = true.
Proof. vm_compute. reflexivity. Qed.

Lemma calculate_duration_months_returns (env : Env.t)
    (start_date end_date : string) (start end_ : Z) :
  Env.strptime env start_date = Return start ->
  Env.strptime env end_date = Return end_ ->
  0 <= end_ - start <= 7305 ->
  exists m,
    calculate_duration_months env start_date end_date = Return (PyInt m)
    /\ Z.abs (3044 * m - 100 * (end_ - start)) <= 1522.
Proof.
  intros Hstart Hend Hspan. unfold calculate_duration_months.
  rewrite Hstart, Hend. cbn [mbind result_bind].
  pose proof (month_counts_right_spec _ _ _ month_counts_right_twenty_years
                (end_ - start) ltac:(lia)) as Hright.
  unfold month_count_right in Hright. cbn [mbind result_bind] in Hright.
  destruct (py_truediv (PyInt (end_ - start)) _) as [months|e];
    [|discriminate Hright].
  cbn [mbind result_bind] in Hright |- *.
  destruct (py_round months) as [[m|x]|e]; try discriminate Hright.
  exists m. split; [reflexivity|].
  unfold nearest_month_count in Hright. apply Z.leb_le in Hright.
  exact Hright.
Qed.

(** X3: for two dates that parse and lie at most 7305 days (twenty
    years) apart, the later one not first, the duration in months is
    computed without error and is the integer nearest to the number of
    days divided by 30.44; it is 0 exactly for spans of at most 15
    days. *)
Theorem duration_is_nearest_month_count (env : Env.t)
    (start_date end_date : string) (start end_ : Z) :
  Env.strptime env start_date = Return start ->
  Env.strptime env end_date = Return end_ ->
  0 <= end_ - start <= 7305 ->
  exists m,
    calculate_duration_months env start_date end_date = Return (PyInt m)
    /\ Z.abs (3044 * m - 100 * (end_ - start)) <= 1522
    /\ (m = 0 <-> end_ - start <= 15).
Proof.
  intros Hstart Hend Hspan.
  destruct (calculate_duration_months_returns env _ _ _ _ Hstart Hend Hspan)
    as (m & Hcall & Hnear).
  exists m. split; [exact Hcall|]. split; [exact Hnear|]. lia.
Qed.

Lemma duration_is_nearest_month_count_witness :
  calculate_duration_months example_env "2025-01-01" "2025-12-31"
  = Return (PyInt 12).
Proof.
  destruct (duration_is_nearest_month_count example_env
              "2025-01-01" "2025-12-31" 739252 739616
              eq_refl eq_refl ltac:(lia)) as (m & Hcall & Hnear & _).
  rewrite Hcall. do 2 f_equal. lia.
Defined.

(** ** Project metadata *)

(** X4: the metadata endpoint reports a date that does not parse as a 400
    error carrying the parser's message, while a start date that is not
    before the end date, although raised as a 400 error, reaches the
    caller as a 500 error whose detail quotes it.  Neither call returns
    a store. *)
Theorem metadata_date_errors (env : Env.t) (proposals_storage : storage)
    (metadata : ProjectMetadata.t) :
  (forall message,
      Env.strptime env (ProjectMetadata.start_date metadata)
      = Raise (PyException "ValueError" message) ->
      create_project_metadata env proposals_storage metadata
      = Raise (HTTPException 400 (Txt "Invalid date format: " :: message)))
  /\ (forall start message,
        Env.strptime env (ProjectMetadata.start_date metadata)
        = Return start ->
        Env.strptime env (ProjectMetadata.end_date metadata)
        = Raise (PyException "ValueError" message) ->
        create_project_metadata env proposals_storage metadata
        = Raise (HTTPException 400
                   (Txt "Invalid date format: " :: message)))
  /\ (forall start end_,
        Env.strptime env (ProjectMetadata.start_date metadata)
        = Return start ->
        Env.strptime env (ProjectMetadata.end_date metadata)
        = Return end_ ->
        end_ <= start ->
        create_project_metadata env proposals_storage metadata
        = Raise (HTTPException 500
                   [Txt "Error processing metadata: "; StrOf (PyInt 400);
                    Txt ": "; Txt "End date must be after start date"])).
Proof.
  unfold create_project_metadata. split; [|split].
  - intros message ->. reflexivity.
  - intros start message -> ->. reflexivity.
  - intros start end_ -> -> Horder. cbn [mbind result_bind].
    apply Z.leb_le in Horder. rewrite Horder. reflexivity.
Qed.

Lemma metadata_date_errors_witness :
  create_project_metadata example_env ∅ example_reversed_metadata
  = Raise (HTTPException 500
             [Txt "Error processing metadata: "; StrOf (PyInt 400);
              Txt ": "; Txt "End date must be after start date"]).
Proof.
  apply (proj2 (proj2 (metadata_date_errors example_env ∅
                         example_reversed_metadata))
           739616 739252 eq_refl eq_refl).
  lia.
Defined.

(** X5: for dates that parse, in order and at most twenty years
    apart, the metadata endpoint returns; the stored metadata keeps the
    submitted fields, carries version "v1.0" and the nearest month count,
    and fetching the returned quotation code from the new store gives
    back exactly the record with that metadata, while every other code
    reads as before. *)
Theorem metadata_round_trip (env : Env.t) (proposals_storage : storage)
    (metadata : ProjectMetadata.t) (start end_ : Z) :
  Env.strptime env (ProjectMetadata.start_date metadata) = Return start ->
  Env.strptime env (ProjectMetadata.end_date metadata) = Return end_ ->
  0 < end_ - start <= 7305 ->
  exists proposals_storage' response m,
    create_project_metadata env proposals_storage metadata
    = Return (proposals_storage', response)
    /\ MetadataResponse.success response = true
    /\ MetadataResponse.quotation_code response
       = generate_quotation_code (Env.now env 0) (Env.uuid4 env)
    /\ MetadataResponse.metadata response
       = {| ProcessedMetadata.fields := metadata;
            ProcessedMetadata.duration_months := PyInt m;
            ProcessedMetadata.quotation_code :=
              MetadataResponse.quotation_code response;
            ProcessedMetadata.version_name := "v1.0";
            ProcessedMetadata.created_on :=
              DateTime.dashed (Env.now env 1) |}
    /\ Z.abs (3044 * m - 100 * (end_ - start)) <= 1522
    /\ get_proposal proposals_storage'
         (MetadataResponse.quotation_code response)
       = Return (<["created_at" :=
                    StoredText (DateTime.isoformat (Env.now env 2))]>
                  (<["metadata" :=
                       StoredMetadata (MetadataResponse.metadata response)]>
                     ∅))
    /\ (forall other,
          other <> MetadataResponse.quotation_code response ->
          get_proposal proposals_storage' other
          = get_proposal proposals_storage other).
Proof.
  intros Hstart Hend Hspan.
  destruct (calculate_duration_months_returns env _ _ _ _ Hstart Hend
              ltac:(lia)) as (m & Hmonths & Hnear).
  unfold create_project_metadata. rewrite Hstart, Hend.
  cbn [mbind result_bind].
  replace (end_ <=? start) with false by (symmetry; apply Z.leb_gt; lia).
  rewrite Hmonths. cbn [mbind result_bind mret result_ret try_except].
  eexists _, _, m. split; [reflexivity|].
  cbn [MetadataResponse.success MetadataResponse.quotation_code
       MetadataResponse.metadata].
  split; [reflexivity|]. split; [reflexivity|]. split; [reflexivity|].
  split; [exact Hnear|]. unfold get_proposal. split.
  - rewrite lookup_insert_eq. reflexivity.
  - intros other Hother. rewrite lookup_insert_ne by congruence.
    reflexivity.
Qed.

Lemma metadata_round_trip_witness :
  exists proposals_storage' response,
    create_project_metadata example_env ∅ example_metadata
    = Return (proposals_storage', response)
    /\ MetadataResponse.quotation_code response = "MUT-20250115-3F2A9C1E"
    /\ is_raise (get_proposal proposals_storage' "MUT-20250115-3F2A9C1E")
       = false.
Proof.
  destruct (metadata_round_trip example_env ∅ example_metadata
              739252 739616 eq_refl eq_refl ltac:(lia))
    as (st & response & m & Hcall & _ & Hcode & _ & _ & Hget & _).
  exists st, response. split; [exact Hcall|].
  split; [rewrite Hcode; reflexivity|].
  replace "MUT-20250115-3F2A9C1E"
    with (MetadataResponse.quotation_code response)
    by (rewrite Hcode; reflexivity).
  rewrite Hget. reflexivity.
Defined.

(** ** Proposal store *)

(** X6: a proposal that is accepted is stored under the quotation code
    the response names: fetching that code from the new store returns
    exactly the record holding the returned proposal and a timestamp,
    whatever was stored under the code before, and every other code
    reads as before. *)
Theorem proposal_round_trip (env : Env.t) (proposals_storage : storage)
    (request : FinalProposalRequest.t) (proposals_storage' : storage)
    (response : ProposalResponse.t) :
  create_financial_proposal env proposals_storage request
  = Return (proposals_storage', response) ->
  ProposalResponse.quotation_code response
  = Proposal.offer_number (ProposalResponse.proposal response)
  /\ get_proposal proposals_storage'
       (ProposalResponse.quotation_code response)
     = Return (<["created_at" :=
                  StoredText (DateTime.isoformat (Env.now env 3))]>
                (<["proposal" :=
                     StoredProposal (ProposalResponse.proposal response)]>
                   ∅))
  /\ (forall other,
        other <> ProposalResponse.quotation_code response ->
        get_proposal proposals_storage' other
        = get_proposal proposals_storage other).
Proof.
  rewrite create_financial_proposal_outcome.
  destruct (percentage_mismatch _); [discriminate|].
  intros H. injection H as <- <-.
  cbn [ProposalResponse.quotation_code ProposalResponse.proposal].
  unfold get_proposal. split; [reflexivity|]. split.
  - rewrite lookup_insert_eq. reflexivity.
  - intros other Hother. rewrite lookup_insert_ne by congruence.
    reflexivity.
Qed.

Lemma proposal_round_trip_witness :
  exists proposals_storage' response,
    create_financial_proposal example_env ∅ example_proposal
    = Return (proposals_storage', response)
    /\ get_proposal proposals_storage'
         (ProposalResponse.quotation_code response)
       = Return (<["created_at" :=
                    StoredText (DateTime.isoformat (Env.now example_env 3))]>
                  (<["proposal" :=
                       StoredProposal (ProposalResponse.proposal response)]>
                     ∅)).
Proof.
  pose proof (create_financial_proposal_outcome example_env ∅
                example_proposal) as Hcreate.
  cbv zeta in Hcreate.
  replace (percentage_mismatch _) with false in Hcreate
    by (vm_compute; reflexivity).
  eexists _, _. split; [exact Hcreate|].
  exact (proj1 (proj2 (proposal_round_trip example_env ∅ example_proposal
                         _ _ Hcreate))).
Defined.

(** X7: deleting a quotation code that is not stored is a 404 error.
    Deleting a stored code returns a store in which that code is gone
    (fetching it, summarising it and deleting it again are all 404
    errors) and in which every other code reads as before. *)
Theorem delete_removes_one_record (proposals_storage : storage)
    (quotation_code : string) :
  (proposals_storage !! quotation_code = None ->
   delete_proposal proposals_storage quotation_code
   = Raise (HTTPException 404 [Txt "Proposal not found"]))
  /\ (forall data,
        get_proposal proposals_storage quotation_code = Return data ->
        exists proposals_storage',
          delete_proposal proposals_storage quotation_code
          = Return proposals_storage'
          /\ get_proposal proposals_storage' quotation_code
             = Raise (HTTPException 404 [Txt "Proposal not found"])
          /\ get_proposal_summary proposals_storage' quotation_code
             = Raise (HTTPException 404 [Txt "Proposal not found"])
          /\ delete_proposal proposals_storage' quotation_code
             = Raise (HTTPException 404 [Txt "Proposal not found"])
          /\ (forall other,
                other <> quotation_code ->
                get_proposal proposals_storage' other
                = get_proposal proposals_storage other)).
Proof.
  unfold delete_proposal, get_proposal, get_proposal_summary. split.
  - intros ->. reflexivity.
  - intros data Hget.
    destruct (proposals_storage !! quotation_code) as [stored|] eqn:Hlookup;
      [|discriminate].
    eexists. split; [reflexivity|].
    rewrite lookup_delete_eq. repeat (split; [reflexivity|]).
    intros other Hother. rewrite lookup_delete_ne by congruence.
    reflexivity.
Qed.

Lemma delete_removes_one_record_witness :
  exists proposals_storage',
    delete_proposal
      (<["MUT-20250115-3F2A9C1E" :=
           <["created_at" := StoredText "2025-01-15T10:30:00.123456"]> ∅]>
         (∅ : storage))
      "MUT-20250115-3F2A9C1E"
    = Return proposals_storage'
    /\ get_proposal proposals_storage' "MUT-20250115-3F2A9C1E"
       = Raise (HTTPException 404 [Txt "Proposal not found"]).
Proof.
  destruct (proj2 (delete_removes_one_record
                     (<["MUT-20250115-3F2A9C1E" :=
           <["created_at" := StoredText "2025-01-15T10:30:00.123456"]> ∅]>
         (∅ : storage))
                     "MUT-20250115-3F2A9C1E")
                (<["created_at" := StoredText "2025-01-15T10:30:00.123456"]>
                   ∅))
    as (st & Hdelete & Hget & _).
  - unfold get_proposal. rewrite lookup_insert_eq. reflexivity.
  - exists st. split; assumption.
Defined.

(** ** Cash-flow entries *)

Lemma emitted_entry (overhead_costs : list (string * num))
    (request : list DeliverableData.t) :
  forall (c : num) (new : list Deliverable.t),
    emitted overhead_costs c request = Return new ->
    length new = length request
    /\ forall (k : nat) (deliv_data : DeliverableData.t),
         request !! k = Some deliv_data ->
         exists d running,
           new !! k = Some d
           /\ deliverable_entry overhead_costs running deliv_data
              = Return (d, Deliverable.cumulative_net_flow d).
Proof.
  induction request as [|dd rest IH]; intros c new Hnew; simpl in Hnew.
  - injection Hnew as <-. split; [reflexivity|].
    intros k deliv_data Hk. destruct k; discriminate.
  - destruct (deliverable_entry overhead_costs c dd) as [[d0 c']|e]
      eqn:Hentry; simpl in Hnew; [|discriminate].
    destruct (emitted overhead_costs c' rest) as [ds|e] eqn:Hrest;
      simpl in Hnew; [|discriminate].
    injection Hnew as <-.
    destruct (IH _ _ Hrest) as [Hlen Hlookup].
    split; [simpl; rewrite Hlen; reflexivity|].
    intros [|k] deliv_data Hk; simpl in Hk.
    + injection Hk as <-. exists d0, c. split; [reflexivity|].
      rewrite Hentry. f_equal. f_equal.
      apply (deliverable_entry_total _ _ _ _ _ Hentry).
    + apply (Hlookup k deliv_data Hk).
Qed.

(** X8: a returned cash flow has one entry per requested deliverable, in
    request order.  Each entry repeats the name, due date, service id
    and the three costs of its deliverable, its cash_out is the sum of
    the three costs plus the overhead, its overhead is the overhead of
    those costs over the service's duration (one month without a
    service), its net_flow is cash_in minus cash_out, it is profitable
    exactly when the net_flow is greater than 0, and it carries service
    information exactly when the deliverable names a service. *)
Theorem entries_follow_request (overhead_costs : list (string * num))
    (request : list DeliverableData.t) (r : CashFlow.t) :
  calculate_deliverable_cashflow overhead_costs request = Return r ->
  length (CashFlow.deliverables r) = length request
  /\ forall (k : nat) (deliv_data : DeliverableData.t),
       request !! k = Some deliv_data ->
       exists d,
         CashFlow.deliverables r !! k = Some d
         /\ Deliverable.deliverable_name d = DeliverableData.name deliv_data
         /\ Deliverable.due_date d = DeliverableData.due_date deliv_data
         /\ Deliverable.service_id d
            = DeliverableData.service_id deliv_data
         /\ Deliverable.salaries d
            = PyFloat (DeliverableData.salaries deliv_data)
         /\ Deliverable.tools d = PyFloat (DeliverableData.tools deliv_data)
         /\ Deliverable.others d
            = PyFloat (DeliverableData.others deliv_data)
         /\ Deliverable.overhead d
            = calculate_overhead (base_costs deliv_data) overhead_costs
                match Deliverable.service_info d with
                | Some info => ServiceInfo.duration info
                | None => 1
                end
         /\ Deliverable.cash_out d
            = py_add (base_costs deliv_data) (Deliverable.overhead d)
         /\ Deliverable.net_flow d
            = py_sub (Deliverable.cash_in d) (Deliverable.cash_out d)
         /\ Deliverable.is_profitable d
            = py_gt (Deliverable.net_flow d) (PyInt 0)
         /\ (Deliverable.service_info d = None
             <-> no_service deliv_data = true).
Proof.
  rewrite cashflow_outcome.
  destruct (emitted overhead_costs (PyInt 0) request) as [ds|e] eqn:Hds;
    [|discriminate].
  destruct (cashflow_summary ds) as [s|e]; [|discriminate].
  intros H. injection H as <-. cbn [CashFlow.deliverables].
  destruct (emitted_entry _ _ _ _ Hds) as [Hlen Hlookup].
  split; [exact Hlen|].
  intros k deliv_data Hk.
  destruct (Hlookup k deliv_data Hk) as (d & running & Hd & Hentry).
  exists d. split; [exact Hd|].
  unfold deliverable_entry in Hentry.
  pose proof (resolve_amount_missing deliv_data) as Hmissing.
  unfold resolve_amount, no_service in *.
  destruct (DeliverableData.service_id deliv_data) as [sid|];
    [destruct (Str.truthy sid);
     [destruct (dict_get SERVICES_CATALOG sid) as [service|];
      [|discriminate Hentry]|]|];
    destruct (DeliverableData.amount deliv_data) as [amount|];
    try discriminate Hentry;
    cbn [mbind result_bind mret result_ret] in Hentry;
    injection Hentry as Hentry _; subst d;
    cbn [Deliverable.deliverable_name Deliverable.due_date
         Deliverable.service_id Deliverable.salaries Deliverable.tools
         Deliverable.others Deliverable.overhead Deliverable.cash_out
         Deliverable.net_flow Deliverable.is_profitable
         Deliverable.service_info Deliverable.cash_in
         ServiceInfo.duration negb];
    repeat (split; [reflexivity|]);
    split; congruence.
Qed.

Lemma entries_follow_request_witness :
  exists r d,
    calculate_deliverable_cashflow DEFAULT_OVERHEAD_COSTS
      [example_D1 "2025-03-31"; example_D2] = Return r
    /\ CashFlow.deliverables r !! 1%nat = Some d
    /\ Deliverable.deliverable_name d = "D2"
    /\ Deliverable.service_info d = None.
Proof.
  eexists.
  destruct (proj2 (entries_follow_request DEFAULT_OVERHEAD_COSTS
                     [example_D1 "2025-03-31"; example_D2] _
                     ltac:(vm_compute; reflexivity))
              1%nat example_D2 eq_refl)
    as (d & Hd & Hname & _ & _ & _ & _ & _ & _ & _ & _ & _ & Hinfo).
  exists d. split; [reflexivity|]. split; [exact Hd|].
  split; [exact Hname|]. apply Hinfo. reflexivity.
Defined.

Lemma resolvable_resolves (deliv_data : DeliverableData.t) :
  is_raise (resolve_amount deliv_data) = negb (resolvable deliv_data).
Proof.
  unfold resolve_amount, resolvable.
  destruct (DeliverableData.service_id deliv_data) as [sid|];
    [destruct (Str.truthy sid);
     [destruct (dict_get SERVICES_CATALOG sid)|]|];
    destruct (DeliverableData.amount deliv_data); reflexivity.
Qed.

Lemma emitted_returns (overhead_costs : list (string * num))
    (request : list DeliverableData.t) :
  Forall (fun x => is_raise (resolve_amount x) = false) request ->
  forall c, is_raise (emitted overhead_costs c request) = false.
Proof.
  induction 1 as [|dd rest Hdd _ IH]; intros c; [reflexivity|].
  simpl.
  pose proof (deliverable_entry_resolve overhead_costs c dd) as Hres.
  destruct (resolve_amount dd) as [[info amount]|e]; [|discriminate Hdd].
  destruct Hres as (d & -> & _). cbn [mbind result_bind].
  specialize (IH (Deliverable.cumulative_net_flow d)).
  destruct (emitted overhead_costs _ rest); [reflexivity|discriminate IH].
Qed.

(** X9: the cash-flow call returns exactly when every deliverable of the
    request can be priced, that is, names a service of the catalog or
    names none and gives an amount: the costs of the deliverables and the
    overhead rates never make it fail. *)
Theorem cashflow_returns_iff_resolvable
    (overhead_costs : list (string * num))
    (request : list DeliverableData.t) :
  is_raise (calculate_deliverable_cashflow overhead_costs request) = false
  <-> forallb resolvable request = true.
Proof.
  rewrite cashflow_outcome. split.
  - intros Hreturn. apply forallb_forall. intros dd Hin.
    destruct (resolvable dd) eqn:Hdd; [reflexivity|].
    assert (Hraise : is_raise (resolve_amount dd) = true)
      by (rewrite resolvable_resolves, Hdd; reflexivity).
    destruct (split_at_first_unresolved _ _ Hin Hraise)
      as (before & x & after & e & -> & Hbefore & Hx).
    rewrite (emitted_first_error _ _ _ _ _ Hbefore Hx) in Hreturn.
    discriminate Hreturn.
  - intros Hall.
    assert (Hresolve : Forall (fun x => is_raise (resolve_amount x) = false)
                         request).
    { apply Forall_forall. intros dd Hin.
      rewrite resolvable_resolves.
      rewrite forallb_forall in Hall. rewrite (Hall dd); [reflexivity|].
      apply list_elem_of_In, Hin. }
    pose proof (emitted_returns overhead_costs _ Hresolve (PyInt 0)) as He.
    destruct (emitted overhead_costs (PyInt 0) request) as [ds|e];
      [|discriminate He].
    rewrite cashflow_summary_returns. reflexivity.
Qed.

Lemma cashflow_returns_iff_resolvable_witness :
  is_raise (calculate_deliverable_cashflow DEFAULT_OVERHEAD_COSTS
              [example_D2; example_D3]) = false
  /\ forallb resolvable [example_D2; example_unknown_service] = false.
Proof.
  split; [|reflexivity].
  apply (proj2 (cashflow_returns_iff_resolvable DEFAULT_OVERHEAD_COSTS
                  [example_D2; example_D3])).
  reflexivity.
Defined.

(** ** Overhead configuration *)

(** X10: updating the overhead rates of a table that has the six rate
    keys keeps the keys and their order and replaces every value, so the
    new table is the submitted one whatever the old values were; the
    overhead computed afterwards is 0.15 times the base costs plus the
    sum of the six submitted rates times the duration. *)
Theorem overhead_update_replaces_rates
    (overhead_costs : list (string * num)) (overhead : OverheadCosts.t) :
  map fst overhead_costs = OVERHEAD_KEYS ->
  update_overhead_costs overhead_costs overhead
  = OverheadCosts.dict overhead
  /\ map fst (update_overhead_costs overhead_costs overhead)
     = OVERHEAD_KEYS
  /\ get_overhead_costs (update_overhead_costs overhead_costs overhead)
     = update_overhead_costs DEFAULT_OVERHEAD_COSTS overhead
  /\ forall base duration_months,
       calculate_overhead base
         (update_overhead_costs overhead_costs overhead) duration_months
       = py_add (py_mul base (PyFloat (F.decimal 15 2)))
           (py_mul
              (py_sum [OverheadCosts.salaries overhead;
                       OverheadCosts.utilities overhead;
                       OverheadCosts.transportation overhead;
                       OverheadCosts.visas overhead;
                       OverheadCosts.office_rent overhead;
                       OverheadCosts.insurance overhead])
              (PyInt duration_months)).
Proof.
  intros Hkeys.
  assert (Hnew : update_overhead_costs overhead_costs overhead
                 = OverheadCosts.dict overhead).
  { destruct overhead_costs
      as [|[k1 v1] [|[k2 v2] [|[k3 v3] [|[k4 v4] [|[k5 v5]
            [|[k6 v6] [|more rest]]]]]]];
      try discriminate Hkeys.
    injection Hkeys as -> -> -> -> -> ->. reflexivity. }
  rewrite Hnew. repeat split; reflexivity.
Qed.

Lemma overhead_update_replaces_rates_witness :
  update_overhead_costs DEFAULT_OVERHEAD_COSTS example_overhead
  = OverheadCosts.dict example_overhead
  /\ py_sum (dict_values
               (update_overhead_costs DEFAULT_OVERHEAD_COSTS
                  example_overhead))
     = PyFloat (F.decimal 590005 1).
Proof.
  split.
  - apply (overhead_update_replaces_rates DEFAULT_OVERHEAD_COSTS
             example_overhead eq_refl).
  - vm_compute. reflexivity.
Defined.

(** ** Catalog *)

Lemma dict_get_In {V : Type} (d : list (string * V)) (key : string)
    (v : V) :
  dict_get d key = Some v -> In (key, v) d.
Proof.
  induction d as [|[k w] rest IH]; simpl; [discriminate|].
  destruct (String.eqb k key) eqn:Hk.
  - apply String.eqb_eq in Hk as ->. intros H. injection H as ->.
    left. reflexivity.
  - intros H. right. apply IH, H.
Qed.

Lemma In_dict_get {V : Type} (d : list (string * V)) (key : string)
    (v : V) :
  NoDup (map fst d) -> In (key, v) d -> dict_get d key = Some v.
Proof.
  induction d as [|[k w] rest IH]; simpl; intros Hnodup Hin;
    [destruct Hin|].
  apply NoDup_cons in Hnodup as [Hfresh Hnodup].
  destruct Hin as [Heq|Hin].
  - injection Heq as -> ->. rewrite String.eqb_refl. reflexivity.
  - destruct (String.eqb k key) eqn:Hk; [|apply IH; assumption].
    apply String.eqb_eq in Hk as ->. exfalso. apply Hfresh.
    apply list_elem_of_In, (in_map fst _ _ Hin).
Qed.

Lemma catalog_ids_distinct : NoDup (map fst SERVICES_CATALOG).
Proof. apply (bool_decide_unpack _). vm_compute. reflexivity. Qed.

(** X11: the catalog has 35 services under distinct ids, so every listed
    service is the one found under its id.  Looking up an id that is not
    listed is a 404 error; looking up a listed id returns the id with
    its service, whose duration is between 1 and 36 months and whose
    price is greater than 0, and the id is not empty. *)
Theorem catalog_lookup (service_id : string) :
  snd get_services_catalog = 35
  /\ NoDup (map fst (fst get_services_catalog))
  /\ (forall service,
        In (service_id, service) (fst get_services_catalog)
        <-> get_service_by_id service_id = Return (service_id, service))
  /\ ((forall service, ~ In (service_id, service) SERVICES_CATALOG) ->
      get_service_by_id service_id
      = Raise (HTTPException 404 [Txt "Service not found"]))
  /\ (forall service,
        get_service_by_id service_id = Return (service_id, service) ->
        1 <= Service.duration service <= 36
        /\ F.ltb (F.of_Z 0) (Service.price service) = true
        /\ Str.truthy service_id = true).
Proof.
  unfold get_service_by_id, get_services_catalog. cbn [fst snd].
  split; [reflexivity|]. split; [exact catalog_ids_distinct|].
  split; [|split].
  - intros service. split.
    + intros Hin.
      rewrite (In_dict_get _ _ _ catalog_ids_distinct Hin). reflexivity.
    + destruct (dict_get SERVICES_CATALOG service_id) as [found|] eqn:Hget;
        [|discriminate].
      intros H. injection H as <-. apply dict_get_In, Hget.
  - intros Habsent.
    destruct (dict_get SERVICES_CATALOG service_id) as [found|] eqn:Hget;
      [|reflexivity].
    exfalso. apply (Habsent found), dict_get_In, Hget.
  - intros service.
    destruct (dict_get SERVICES_CATALOG service_id) as [found|] eqn:Hget;
      [|discriminate].
    intros H. injection H as <-.
    pose proof (dict_get_forallb
                  (fun s => (1 <=? Service.duration s)
                            && (Service.duration s <=? 36)
                            && F.ltb (F.of_Z 0) (Service.price s))
                  SERVICES_CATALOG service_id found
                  ltac:(vm_compute; reflexivity) Hget) as Hok.
    apply andb_prop in Hok as [Hok Hprice].
    apply andb_prop in Hok as [Hlow Hhigh].
    apply Z.leb_le in Hlow, Hhigh.
    split; [lia|]. split; [exact Hprice|].
    destruct service_id; [discriminate Hget|reflexivity].
Qed.

Lemma catalog_lookup_witness :
  exists service,
    get_service_by_id "4.6" = Return ("4.6", service)
    /\ Service.duration service = 1
    /\ F.ltb (F.of_Z 0) (Service.price service) = true.
Proof.
  eexists. split; [reflexivity|]. split; [reflexivity|].
  apply (proj2 (proj2 (proj2 (proj2 (catalog_lookup "4.6")))) _ eq_refl).
Defined.

(** ** Empty requests to the assembler *)

(** X12: a proposal request without payment terms is always rejected:
    the percentages sum to the int 0, and the mismatch error with that
    sum is what the handler reports.  A request without line items, when
    its terms are accepted, gets the int 0 as total_amount. *)
Theorem assembler_empty_inputs (env : Env.t) (proposals_storage : storage) :
  (forall items,
      create_financial_proposal env proposals_storage (without_terms items)
      = Raise (HTTPException 500
                 [Txt "Error creating proposal: "; StrOf (PyInt 400);
                  Txt ": ";
                  Txt "Payment terms must sum to 100%. Current sum: ";
                  StrOf (PyInt 0); Txt "%"]))
  /\ (forall terms proposals_storage' response,
        create_financial_proposal env proposals_storage
          {| FinalProposalRequest.proposal_items := [];
             FinalProposalRequest.payment_terms := terms |}
        = Return (proposals_storage', response) ->
        Proposal.total_amount (ProposalResponse.proposal response)
        = PyInt 0
        /\ Proposal.items (ProposalResponse.proposal response) = []
        /\ length (Proposal.payment_terms
                     (ProposalResponse.proposal response))
           = length terms).
Proof.
  split.
  - intros items. rewrite create_financial_proposal_outcome.
    reflexivity.
  - intros terms st' response.
    rewrite create_financial_proposal_outcome.
    destruct (percentage_mismatch _); [discriminate|].
    intros H. injection H as _ <-.
    cbn [ProposalResponse.proposal assembled Proposal.total_amount
         Proposal.items Proposal.payment_terms
         FinalProposalRequest.proposal_items
         FinalProposalRequest.payment_terms].
    split; [reflexivity|]. split; [reflexivity|]. apply length_map.
Qed.

Lemma assembler_empty_inputs_witness :
  exists proposals_storage' response,
    create_financial_proposal example_env ∅
      {| FinalProposalRequest.proposal_items := [];
         FinalProposalRequest.payment_terms :=
           [example_term "Kickoff" 40; example_term "Completion" 60] |}
    = Return (proposals_storage', response)
    /\ Proposal.total_amount (ProposalResponse.proposal response)
       = PyInt 0.
Proof.
  pose proof (create_financial_proposal_outcome example_env ∅
                {| FinalProposalRequest.proposal_items := [];
                   FinalProposalRequest.payment_terms :=
                     [example_term "Kickoff" 40;
                      example_term "Completion" 60] |}) as Hcreate.
  cbv zeta in Hcreate.
  replace (percentage_mismatch _) with false in Hcreate
    by (vm_compute; reflexivity).
  eexists _, _. split; [exact Hcreate|].
  apply (proj2 (assembler_empty_inputs example_env ∅) _ _ _ Hcreate).
Defined.
